(** * Shallow embedding of [app.py]: the FastAPI layer of the SQL agent.

    The request handlers are modelled as computations in a small monad that
    threads the process state ([world]), records the observable actions
    (websocket frames sent, engine invocations, preference-store I/O) and
    may raise a Python exception.  The reasoning engine ([agent.stream]) is
    an external capability and is a variable of the development: for the
    state it is called in, it yields the events the handlers read and
    leaves its effect on the state (the preference tools it calls, the
    conversation memory of the thread, the time it takes). *)

From Stdlib Require Import String List Bool ZArith Lia.
From Stdlib Require Import DecimalString.
Import ListNotations.
Open Scope string_scope.
Set Warnings "-register-all".


(** ** JSON values (inbound frames and request bodies) *)

Inductive jvalue : Type :=
| JNull
| JBool (b : bool)
| JNum (z : Z)
| JStr (s : string)
| JArr (l : list jvalue)
| JObj (kvs : list (string * jvalue)).

(** [dict.get(k)] on a parsed JSON object: [json.loads] keeps the last
    binding of a duplicated key. *)
Fixpoint dict_lookup {V} (kvs : list (string * V)) (k : string) : option V :=
  match kvs with
  | [] => None
  | (k', v) :: rest =>
      match dict_lookup rest k with
      | Some v' => Some v'
      | None => if String.eqb k k' then Some v else None
      end
  end.

Definition dict_get {V} (kvs : list (string * V)) (k : string) (d : V) : V :=
  match dict_lookup kvs k with Some v => v | None => d end.

(** Python truthiness of a JSON value ([if not query]). *)
Definition truthy (v : jvalue) : bool :=
  match v with
  | JNull => false
  | JBool b => b
  | JNum z => negb (Z.eqb z 0)
  | JStr s => negb (String.eqb s "")
  | JArr l => match l with [] => false | _ => true end
  | JObj kvs => match kvs with [] => false | _ => true end
  end.

Definition string_of_Z (z : Z) : string :=
  NilZero.string_of_int (Z.to_int z).

Fixpoint join (sep : string) (l : list string) : string :=
  match l with
  | [] => ""
  | [x] => x
  | x :: rest => x ++ sep ++ join sep rest
  end.

(** [repr] of a JSON value once loaded as a Python object. *)
Fixpoint py_repr (v : jvalue) : string :=
  match v with
  | JNull => "None"
  | JBool true => "True"
  | JBool false => "False"
  | JNum z => string_of_Z z
  | JStr s => "'" ++ s ++ "'"
  | JArr l => "[" ++ join ", " (map py_repr l) ++ "]"
  | JObj kvs =>
      "{" ++ join ", " (map (fun kv => "'" ++ fst kv ++ "': " ++ py_repr (snd kv)) kvs) ++ "}"
  end.

(** [str(v)], as used inside an f-string. *)
Definition py_str (v : jvalue) : string :=
  match v with JStr s => s | _ => py_repr v end.

(** [str(x)] for an [Optional[str]]. *)
Definition py_str_opt (o : option string) : string :=
  match o with Some s => s | None => "None" end.

Definition newline : string := String (Ascii.ascii_of_nat 10) "".

(** ** Engine messages and events *)

(** A tool call of an AI message: [{'name': ..., 'args': {...}}]. *)
Record tool_call := mkToolCall {
  tc_name : option string;
  tc_args : list (string * string)
}.

(** A LangChain message as the handlers see it: its [tool_calls] (empty when
    the attribute is missing), its [content] when it is a [str], and its
    [name] ([None] when missing or [None]). *)
Record message := mkMessage {
  m_tool_calls : list tool_call;
  m_content : option string;
  m_name : option string
}.

(** One event of [agent.stream(..., stream_mode="values")]: the value of its
    ["messages"] key, if present. *)
Definition event := option (list message).

(** The output of one [agent.stream] call: the events it yields, then the
    exception that interrupts the iteration, if any. *)
Record stream := mkStream {
  st_events : list event;
  st_failure : option string
}.

Definition SQL_TOOL : string := "sql_db_query".

(** [tool_call.get('name') == 'sql_db_query'] *)
Definition is_sql_name (o : option string) : bool :=
  match o with Some s => String.eqb s SQL_TOOL | None => false end.

(** [not msg.name] *)
Definition unnamed (o : option string) : bool :=
  match o with None => true | Some s => String.eqb s "" end.

(** [tool_call.get('args', {}).get('query', '')] *)
Definition call_query (tc : tool_call) : string := dict_get (tc_args tc) "query" "".

(** ** Python exceptions *)

Inductive exn : Type :=
| IndexError
| AttributeError (type_name : string)   (* [x.get] on a value of that type *)
| JSONDecodeError (msg : string)        (* its [str], which depends on the text *)
| ValidationError (msg : string)        (* pydantic's message *)
| RequestValidationError (loc : string) (* FastAPI's check of a body: 422 *)
| InvalidArgument (field : string)
| EngineFailure (msg : string)
| HTTPException (status_code : nat) (detail : string)
| WebSocketDisconnect.

(** [str(e)] *)
Definition exn_str (e : exn) : string :=
  match e with
  | IndexError => "list index out of range"
  | AttributeError t => "'" ++ t ++ "' object has no attribute 'get'"
  | JSONDecodeError m => m
  | ValidationError m => m
  | RequestValidationError loc => loc  (* never rendered: FastAPI answers 422 *)
  | InvalidArgument f => f ++ " must be non-empty"
  | EngineFailure m => m
  | HTTPException _ d => d
  | WebSocketDisconnect => ""
  end.

(** ** Process state *)

(** A row of the [user_preferences] table. *)
Record pref_row := mkPref {
  p_user : string;
  p_key : string;
  p_value : string;
  p_context : option string;
  p_feedback : option string;
  p_source : option string;
  p_updated : nat
}.

(** The engine's conversation memory (its checkpointer): for an agent
    instance and a thread id, the conversation so far.  Modelled from the
    spec (sql_agent.py is not in src/): the memory belongs to the instance,
    so a fresh instance remembers no turn (spec §4.2, §6). *)
Definition memory_t := list (nat * option string * list message).


(** [sql_agent._global_agent] (an agent instance, numbered), the counter
    numbering fresh instances, the preferences table, the wall clock (read
    by [datetime.now()]; time passes while the engine runs), the state of
    the [uuid4] generator and the engine's conversation memory. *)
Record world := mkWorld {
  global_agent : option nat;
  agent_seq : nat;
  prefs : list pref_row;
  clock : nat;
  uuid_seq : nat;
  memory : memory_t
}.

Definition set_agent (a : option nat) (seq : nat) (w : world) : world :=
  mkWorld a seq (prefs w) (clock w) (uuid_seq w) (memory w).
Definition set_prefs (ps : list pref_row) (w : world) : world :=
  mkWorld (global_agent w) (agent_seq w) ps (clock w) (uuid_seq w) (memory w).
Definition set_uuid_seq (n : nat) (w : world) : world :=
  mkWorld (global_agent w) (agent_seq w) (prefs w) (clock w) n (memory w).

(** ** The reasoning engine *)

(** What one run of the engine leaves behind: the preferences table after
    the preference tools it called ([get_user_priorities],
    [update_user_priority], run by the agent inside [agent.stream]), the
    conversation of its thread with the turn added, and the time when the
    handler is done reading its events.  Both handlers stop reading at the
    same point, which the events determine (the first event whose message
    list is empty, or the end), so this is a function of the same arguments
    as the events. *)
Record run_effect := mkRunEffect {
  ef_prefs : list pref_row;
  ef_conversation : list message;
  ef_clock : nat
}.

(** The engine: for the state at the call, the agent instance, the thread id
    and the input text, the output of [agent.stream] and the run's effect.
    Both may depend on the whole state: the preference store, the
    conversation memory, the time. *)
Record engine := mkEngine {
  eng_stream : world -> nat -> option string -> string -> stream;
  eng_effect : world -> nat -> option string -> string -> run_effect
}.

(** The state once instance [a] has run on thread [t] with effect [ef]. *)
Definition after_run (w : world) (a : nat) (t : option string) (ef : run_effect) : world :=
  mkWorld (global_agent w) (agent_seq w) (ef_prefs ef) (ef_clock ef) (uuid_seq w)
    ((a, t, ef_conversation ef) :: memory w).

(** ** Outbound websocket frames *)

Inductive frame : Type :=
| FRequired                                   (* {"error": "Query is required"} *)
| FProcessing (user_id : string) (query : jvalue)
| FToolCall (tool : option string) (args : list (string * string))
| FRawResult (content : string)
| FMessage (content : string)
| FCompleted (sql_query : option string) (timestamp : nat)
| FError (error : string).                   (* {"status": "error", "error": ...} *)

(** Storage operations on the preferences database. *)
Inductive store_io : Type :=
| IOUpsert (user key : string)
| IORead (user : string)
| IODelete (user : string).

(** Observable actions, in the order they happen. *)
Inductive act : Type :=
| ASend (f : frame)
| AEngine (thread_id : option string) (input : string)
| AStore (op : store_io).

(** ** The handler monad: state, action trace, exceptions *)

Inductive result (A : Type) : Type :=
| Ok (a : A)
| Exc (e : exn).
Arguments Ok {A} a.
Arguments Exc {A} e.

Definition M (A : Type) : Type := world -> world * list act * result A.

Definition ret {A} (a : A) : M A := fun w => (w, [], Ok a).

Definition bind {A B} (m : M A) (f : A -> M B) : M B := fun w =>
  match m w with
  | (w1, t1, Ok a) => let '(w2, t2, r) := f a w1 in (w2, (t1 ++ t2)%list, r)
  | (w1, t1, Exc e) => (w1, t1, Exc e)
  end.

Definition raise {A} (e : exn) : M A := fun w => (w, [], Exc e).

(** [try: m except Exception as e: h(e)] *)
Definition try_except {A} (m : M A) (h : exn -> M A) : M A := fun w =>
  match m w with
  | (w1, t1, Ok a) => (w1, t1, Ok a)
  | (w1, t1, Exc e) => let '(w2, t2, r) := h e w1 in (w2, (t1 ++ t2)%list, r)
  end.

Definition emit (a : act) : M unit := fun w => (w, [a], Ok tt).
Definition send (f : frame) : M unit := emit (ASend f).
Definition get_world : M world := fun w => (w, [], Ok w).
Definition put_world (w' : world) : M unit := fun _ => (w', [], Ok tt).

(** [datetime.now().isoformat()] *)
Definition now : M nat := fun w => (w, [], Ok (clock w)).

Notation "x <- m ;; f" := (bind m (fun x => f))
  (at level 61, m at next level, right associativity).
Notation "m ;;; f" := (bind m (fun _ => f))
  (at level 61, right associativity).

Definition lift {A} (r : result A) : M A :=
  match r with Ok a => ret a | Exc e => raise e end.

(** ** Requests and responses (pydantic models) *)

Record QueryRequest := mkQueryRequest {
  qr_query : string;
  qr_user_id : option string
}.

Record QueryResponse := mkQueryResponse {
  r_user_id : string;
  r_query : string;
  r_summary : string;
  r_sql_query : option string;
  r_raw_result : option string;
  r_timestamp : nat;
  r_model : string
}.

Record PreferenceRequest := mkPreferenceRequest {
  pr_user_id : string;
  pr_priority_key : string;
  pr_priority_value : string;
  pr_context : option string;
  pr_feedback_text : option string;
  pr_source_query : option string
}.

Record PreferenceResponse := mkPreferenceResponse {
  pres_message : string;
  pres_user_id : string;
  pres_preferences : list (string * string)
}.

Record DeleteResponse := mkDeleteResponse {
  del_message : string;
  del_user_id : string;
  del_deleted_count : nat
}.

Record ClearResponse := mkClearResponse {
  clr_message : string;
  clr_new_user_id : string;
  clr_timestamp : nat
}.

(** Validation of a [POST /query] body against [QueryRequest]:
    [query: str], [user_id: Optional[str] = "default_user"]. *)
Definition parse_query_request (body : jvalue) : result QueryRequest :=
  match body with
  | JObj kvs =>
      match dict_lookup kvs "query", dict_lookup kvs "user_id" with
      | Some (JStr q), None => Ok (mkQueryRequest q (Some "default_user"))
      | Some (JStr q), Some JNull => Ok (mkQueryRequest q None)
      | Some (JStr q), Some (JStr u) => Ok (mkQueryRequest q (Some u))
      | Some (JStr _), _ => Exc (RequestValidationError "user_id")
      | _, _ => Exc (RequestValidationError "query")
      end
  | _ => Exc (RequestValidationError "body")
  end.

Definition FALLBACK_SUMMARY : string := "Query processed successfully".

(** ** Event interpretation of [execute_query] (lines 117-137) *)

Record collected := mkCollected {
  c_summary : string;
  c_sql : option string;
  c_raw : option string
}.

(** [summary = ""; sql_query = None; raw_result = None] *)
Definition collected0 : collected := mkCollected "" None None.

(** The loop over [msg.tool_calls]: the last call to the SQL tool wins. *)
Definition scan_tool_calls (tcs : list tool_call) (sql : option string) : option string :=
  fold_left (fun s tc => if is_sql_name (tc_name tc) then Some (call_query tc) else s) tcs sql.

(** The body of the event loop for [msg = event["messages"][-1]]. *)
Definition collect_message (c : collected) (msg : message) : collected :=
  let sql := scan_tool_calls (m_tool_calls msg) (c_sql c) in
  match m_content msg with
  | Some content =>
      if is_sql_name (m_name msg) then mkCollected (c_summary c) sql (Some content)
      else if unnamed (m_name msg) then mkCollected content sql (c_raw c)
      else mkCollected (c_summary c) sql (c_raw c)
  | None => mkCollected (c_summary c) sql (c_raw c)
  end.

(** [event["messages"][-1]] *)
Definition last_message (ms : list message) : result message :=
  match rev ms with m :: _ => Ok m | [] => Exc IndexError end.

(** [for event in events: if "messages" in event: ...] *)
Fixpoint collect_events (evs : list event) (c : collected) : result collected :=
  match evs with
  | [] => Ok c
  | None :: rest => collect_events rest c
  | Some ms :: rest =>
      match last_message ms with
      | Ok m => collect_events rest (collect_message c m)
      | Exc e => Exc e
      end
  end.

(** pydantic's message for [None] given to a [str] field (pydantic 2; the
    line after it, a link to the documentation that names the installed
    version, is not modelled). *)
Definition none_not_str_error (model field : string) : string :=
  "1 validation error for " ++ model ++ newline ++ field ++ newline ++
  "  Input should be a valid string [type=string_type, input_value=None, input_type=NoneType]".

(** [QueryResponse(...)]: [user_id: str] rejects [None]. *)
Definition build_response (req : QueryRequest) (c : collected) (ts : nat)
  : result QueryResponse :=
  match qr_user_id req with
  | Some uid =>
      Ok (mkQueryResponse uid (qr_query req)
            (if String.eqb (c_summary c) "" then FALLBACK_SUMMARY else c_summary c)
            (c_sql c) (c_raw c) ts "Gemini 2.0 Flash")
  | None => Exc (ValidationError (none_not_str_error "QueryResponse" "user_id"))
  end.

(** [f"[User ID: {user_id}]\n{query}"] *)
Definition enhanced_input (uid query : string) : string :=
  "[User ID: " ++ uid ++ "]" ++ newline ++ query.

(** ** Websocket inbound frames *)

(** The text of an inbound frame, as [json.loads] sees it: a JSON value
    (numbers are integers), or a text it rejects, together with the message
    of the [JSONDecodeError] it raises on that text (which names what it
    expected and where, e.g. "Expecting value: line 1 column 1 (char 0)"). *)
Inductive raw : Type :=
| RawJson (v : jvalue)
| RawMalformed (text : string) (msg : string).

Definition json_loads (r : raw) : result jvalue :=
  match r with RawJson v => Ok v | RawMalformed _ m => Exc (JSONDecodeError m) end.

(** [type(v).__name__] of a loaded JSON value. *)
Definition py_type_name (v : jvalue) : string :=
  match v with
  | JNull => "NoneType"
  | JBool _ => "bool"
  | JNum _ => "int"
  | JStr _ => "str"
  | JArr _ => "list"
  | JObj _ => "dict"
  end.

(** ** Concrete runs *)

Definition human (text : string) : message := mkMessage [] (Some text) None.
Definition ai_text (text : string) : message := mkMessage [] (Some text) None.
Definition ai_sql_call (sql : string) : message :=
  mkMessage [mkToolCall (Some SQL_TOOL) [("query", sql)]] (Some "") None.
Definition sql_result (rows : string) : message := mkMessage [] (Some rows) (Some SQL_TOOL).

(** The effect of the demonstration engines: no preference tool is called,
    the thread remembers the user's message, and one time unit passes. *)
Definition demo_effect : world -> nat -> option string -> string -> run_effect :=
  fun w _ _ input => mkRunEffect (prefs w) [human input] (S (clock w)).

(** An engine that queries twice (the second query a retry) and answers. *)
Definition demo_engine : engine := mkEngine (fun _ _ _ input =>
  let h := human input in
  mkStream
    [Some [h];
     Some [h; ai_sql_call "SELECT * FROM plan"];
     Some [h; ai_sql_call "SELECT * FROM plan"; sql_result "error: no such table"];
     Some [h; ai_sql_call "SELECT * FROM plan"; sql_result "error: no such table";
           ai_sql_call "SELECT * FROM plans"];
     Some [h; ai_sql_call "SELECT * FROM plan"; sql_result "error: no such table";
           ai_sql_call "SELECT * FROM plans"; sql_result "[('basic', 10)]"];
     Some [h; ai_sql_call "SELECT * FROM plan"; sql_result "error: no such table";
           ai_sql_call "SELECT * FROM plans"; sql_result "[('basic', 10)]";
           ai_text "There is one plan, basic, at 10."]]
    None) demo_effect.

(** An engine whose last AI message only carries a tool call. *)
Definition partial_engine : engine := mkEngine (fun _ _ _ input =>
  let h := human input in
  mkStream
    [Some [h];
     Some [h; ai_text "Partial answer"];
     Some [h; ai_text "Partial answer"; ai_sql_call "SELECT 1"]]
    None) demo_effect.

Definition world0 : world := mkWorld None 0 [] 42 0 [].

Definition demo_request : QueryRequest := mkQueryRequest "Which plans exist?" (Some "alice").

Definition demo_uuid4 (n : nat) : string := "9b2e4c1a-7f3d-4e8b-a6c5-1d2f3e4a5b6c".

Definition world1 : world :=
  mkWorld (Some 0) 1 [] 43 0
    [(0, Some "alice", [human (enhanced_input "alice" "Which plans exist?")])].

Definition demo_trace : list act :=
  [AEngine (Some "alice") (enhanced_input "alice" "Which plans exist?")].

Definition demo_response : QueryResponse :=
  mkQueryResponse "alice" "Which plans exist?" "There is one plan, basic, at 10."
    (Some "SELECT * FROM plans") (Some "[('basic', 10)]") 43 "Gemini 2.0 Flash".

Definition partial_response : QueryResponse :=
  mkQueryResponse "alice" "Which plans exist?" FALLBACK_SUMMARY
    (Some "SELECT 1") None 43 "Gemini 2.0 Flash".

Definition demo_frame_kvs : list (string * jvalue) := [("query", JStr "Which plans exist?")].

(** Inbound frames: a query, a falsy query and an object without a query. *)
Definition demo_inbox : list raw :=
  [RawJson (JObj demo_frame_kvs); RawJson (JObj [("query", JNum 0)]); RawJson (JObj [])].

(** A [POST /query] body with an explicit [null] user id, and the state its
    run leaves. *)
Definition null_user_body : jvalue :=
  JObj [("query", JStr "Which plans exist?"); ("user_id", JNull)].

Definition null_user_world : world :=
  mkWorld (Some 0) 1 [] 43 0 [(0, None, [human (enhanced_input "None" "Which plans exist?")])].

(** A [POST /query] body whose [query] is not a string. *)
Definition bad_query_body : jvalue := JObj [("query", JNum 1)].

(** A store holding one preference for each of two users. *)
Definition pref_world : world :=
  mkWorld None 0 [mkPref "alice" "cost" "low" None None None 42;
                  mkPref "bob" "cost" "high" None None None 42] 42 0 [].

Definition demo_pref_request : PreferenceRequest :=
  mkPreferenceRequest "alice" "cost" "high" None None None.

Section Handlers.

(** The reasoning engine behind every agent instance. *)
Variable agent : engine.

(** [str(uuid.uuid4())], n-th draw of the generator. *)
Variable uuid4 : nat -> string.

(** Modelled from the spec: [sql_agent.get_or_create_agent] (sql_agent.py is
    not in src/).  The engine instance is a process-wide singleton, created
    lazily on first use and shared thereafter (spec §3). *)
Definition get_or_create_agent : M nat := fun w =>
  match global_agent w with
  | Some a => (w, [], Ok a)
  | None => (set_agent (Some (agent_seq w)) (S (agent_seq w)) w, [], Ok (agent_seq w))
  end.

(** [agent.stream({"messages": [("user", input)]}, config={"configurable":
    {"thread_id": thread_id}}, stream_mode="values")], together with the
    effect of the run on the state. *)
Definition invoke_engine (a : nat) (thread_id : option string) (input : string)
  : M stream :=
  emit (AEngine thread_id input) ;;;
  w <- get_world ;;
  put_world (after_run w a thread_id (eng_effect agent w a thread_id input)) ;;;
  ret (eng_stream agent w a thread_id input).

Definition raise_stream_failure (s : stream) : M unit :=
  match st_failure s with Some m => raise (EngineFailure m) | None => ret tt end.

(** [POST /query] *)
Definition execute_query (req : QueryRequest) : M QueryResponse :=
  try_except
    (agent <- get_or_create_agent ;;
     events <- invoke_engine agent (qr_user_id req)
                 (enhanced_input (py_str_opt (qr_user_id req)) (qr_query req)) ;;
     c <- lift (collect_events (st_events events) collected0) ;;
     raise_stream_failure events ;;;
     ts <- now ;;
     lift (build_response req c ts))
    (fun e => raise (HTTPException 500 ("Query execution failed: " ++ exn_str e))).

(** [POST /query] as FastAPI serves it: the body is validated against
    [QueryRequest] before the handler is called; a body that fails the
    check is answered with status 422 and the handler never runs. *)
Definition post_query (body : jvalue) : M QueryResponse :=
  match parse_query_request body with
  | Ok req => execute_query req
  | Exc e => raise e
  end.

(** [str(uuid.uuid4())] *)
Definition fresh_uuid : M string := fun w =>
  (set_uuid_seq (S (uuid_seq w)) w, [], Ok (uuid4 (uuid_seq w))).

(** [POST /clear] *)
Definition clear_conversation (user_id : option string) : M ClearResponse :=
  try_except
    (w <- get_world ;;
     put_world (set_agent None (agent_seq w) w) ;;;
     new_user_id <- (match user_id with
                     | Some s => if String.eqb s "" then fresh_uuid else ret s
                     | None => fresh_uuid
                     end) ;;
     ts <- now ;;
     ret (mkClearResponse "Conversation memory cleared" new_user_id ts))
    (fun e => raise (HTTPException 500 ("Failed to clear memory: " ++ exn_str e))).

(** ** Preference store *)

Definition same_user (user : string) (r : pref_row) : bool := String.eqb (p_user r) user.

Definition same_key (user key : string) (r : pref_row) : bool :=
  String.eqb (p_user r) user && String.eqb (p_key r) key.

(** Modelled from the spec: [sql_agent.update_user_priority] (sql_agent.py is
    not in src/), the [upsert] of §4.1: user, key and value must be non-empty,
    malformed input fails as [InvalidArgument] before any I/O; otherwise the
    (user, key) record is created or overwritten, stamped with the current
    time, and an acknowledgement is returned. *)
Definition update_user_priority (user key value : string)
  (context feedback source : option string) : M string := fun w =>
  if String.eqb user "" then (w, [], Exc (InvalidArgument "user_id"))
  else if String.eqb key "" then (w, [], Exc (InvalidArgument "priority_key"))
  else if String.eqb value "" then (w, [], Exc (InvalidArgument "priority_value"))
  else
    let row := mkPref user key value context feedback source (clock w) in
    (set_prefs (filter (fun r => negb (same_key user key r)) (prefs w) ++ [row]) w,
     [AStore (IOUpsert user key)],
     Ok ("Saved preference " ++ key ++ " = " ++ value)).

(** Modelled from the spec: [sql_agent.get_user_priorities] (sql_agent.py is
    not in src/), the [listForUser] of §4.1: the key -> value mapping of the
    user's live records. *)
Definition get_user_priorities (user : string) : M (list (string * string)) := fun w =>
  (w, [AStore (IORead user)],
   Ok (map (fun r => (p_key r, p_value r)) (filter (same_user user) (prefs w)))).

(** [POST /preferences] *)
Definition save_preference (req : PreferenceRequest) : M PreferenceResponse :=
  try_except
    (res <- update_user_priority (pr_user_id req) (pr_priority_key req)
              (pr_priority_value req) (pr_context req) (pr_feedback_text req)
              (pr_source_query req) ;;
     preferences <- get_user_priorities (pr_user_id req) ;;
     ret (mkPreferenceResponse res (pr_user_id req) preferences))
    (fun e => raise (HTTPException 500 ("Failed to save preference: " ++ exn_str e))).

(** [DELETE /preferences/{user_id}]:
    [DELETE FROM user_preferences WHERE user_id = ?] and its [rowcount]. *)
Definition delete_preferences (user_id : string) : M DeleteResponse :=
  try_except
    (emit (AStore (IODelete user_id)) ;;;
     w <- get_world ;;
     let deleted_count := length (filter (same_user user_id) (prefs w)) in
     put_world (set_prefs (filter (fun r => negb (same_user user_id r)) (prefs w)) w) ;;;
     ret (mkDeleteResponse
            ("Deleted " ++ string_of_Z (Z.of_nat deleted_count)
             ++ " preferences for user " ++ user_id)
            user_id deleted_count))
    (fun e => raise (HTTPException 500 ("Failed to delete preferences: " ++ exn_str e))).

Record PreferencesView := mkPreferencesView {
  pv_user_id : string;
  pv_preferences : list (string * string);
  pv_count : nat
}.

(** [GET /preferences/{user_id}] *)
Definition get_preferences (user_id : string) : M PreferencesView :=
  try_except
    (preferences <- get_user_priorities user_id ;;
     ret (mkPreferencesView user_id preferences (length preferences)))
    (fun e => raise (HTTPException 500 ("Failed to retrieve preferences: " ++ exn_str e))).

(** ** [WebSocket /ws/{user_id}] *)

(** The loop over [msg.tool_calls]: a [tool_call] frame per call, the SQL
    text of the last call to the SQL tool kept. *)
Fixpoint ws_tool_calls (tcs : list tool_call) (sql : option string) : M (option string) :=
  match tcs with
  | [] => ret sql
  | tc :: rest =>
      send (FToolCall (tc_name tc) (tc_args tc)) ;;;
      ws_tool_calls rest (if is_sql_name (tc_name tc) then Some (call_query tc) else sql)
  end.

(** The body of the event loop for one message ([raw_result] is assigned but
    never read by the handler, so it is not kept). *)
Definition ws_message (msg : message) (sql : option string) : M (option string) :=
  sql' <- ws_tool_calls (m_tool_calls msg) sql ;;
  match m_content msg with
  | Some content =>
      if is_sql_name (m_name msg) then send (FRawResult content) ;;; ret sql'
      else if unnamed (m_name msg) then send (FMessage content) ;;; ret sql'
      else ret sql'
  | None => ret sql'
  end.

Fixpoint ws_events (evs : list event) (sql : option string) : M (option string) :=
  match evs with
  | [] => ret sql
  | None :: rest => ws_events rest sql
  | Some ms :: rest =>
      msg <- lift (last_message ms) ;;
      sql' <- ws_message msg sql ;;
      ws_events rest sql'
  end.

(** One turn for a non-empty query (lines 309-372). *)
Definition ws_turn (user_id : string) (query : jvalue) : M unit :=
  send (FProcessing user_id query) ;;;
  try_except
    (agent <- get_or_create_agent ;;
     events <- invoke_engine agent (Some user_id) (enhanced_input user_id (py_str query)) ;;
     sql <- ws_events (st_events events) None ;;
     raise_stream_failure events ;;;
     ts <- now ;;
     send (FCompleted sql ts))
    (fun e => send (FError (exn_str e))).

(** [data = receive_text(); request_data = json.loads(data);
    query = request_data.get("query", "")] *)
Definition ws_receive_query (r : raw) : M jvalue :=
  data <- lift (json_loads r) ;;
  match data with
  | JObj kvs => ret (dict_get kvs "query" (JStr ""))
  | _ => raise (AttributeError (py_type_name data))
  end.

(** [while True: ...]; [inbox] lists the texts the client sends before it
    disconnects, after which [receive_text] raises [WebSocketDisconnect]. *)
Fixpoint ws_loop (user_id : string) (inbox : list raw) : M unit :=
  match inbox with
  | [] => raise WebSocketDisconnect
  | r :: rest =>
      query <- ws_receive_query r ;;
      (if truthy query then ws_turn user_id query else send FRequired) ;;;
      ws_loop user_id rest
  end.

(** The endpoint: the outer [try] around the loop.  When the handler
    returns, the connection is closed. *)
Definition websocket_endpoint (user_id : string) (inbox : list raw) : M unit :=
  try_except (ws_loop user_id inbox)
    (fun e => match e with
              | WebSocketDisconnect => ret tt
              | _ => send (FError (exn_str e))
              end).


(** ** Observations of a turn's event stream (following the spec's words) *)

(** The message each event exposes ([event["messages"][-1]]), events without
    messages skipped. *)
Definition observed (evs : list event) : list message :=
  flat_map (fun ev => match ev with
                      | Some ms => match rev ms with m :: _ => [m] | [] => [] end
                      | None => []
                      end) evs.

(** The [query] arguments of the SQL tool invocations of a message. *)
Definition msg_sql_calls (m : message) : list string :=
  map call_query (filter (fun tc => is_sql_name (tc_name tc)) (m_tool_calls m)).

(** The content of a message authored by the SQL tool. *)
Definition msg_raw (m : message) : list string :=
  match m_content m with
  | Some c => if is_sql_name (m_name m) then [c] else []
  | None => []
  end.

(** The content of a summary-eligible message (no originating tool name). *)
Definition msg_summary (m : message) : list string :=
  match m_content m with
  | Some c => if is_sql_name (m_name m) then [] else if unnamed (m_name m) then [c] else []
  | None => []
  end.

Definition spec_sql_invocations (evs : list event) : list string :=
  flat_map msg_sql_calls (observed evs).
Definition spec_raw_results (evs : list event) : list string :=
  flat_map msg_raw (observed evs).
Definition spec_summaries (evs : list event) : list string :=
  flat_map msg_summary (observed evs).

(** The last element of a list, or [d] when it is empty. *)
Definition last_or {A} (l : list A) (d : option A) : option A :=
  match rev l with x :: _ => Some x | [] => d end.

(** The frames the spec's streaming adapter sends for one message. *)
Definition msg_frames (m : message) : list frame :=
  map (fun tc => FToolCall (tc_name tc) (tc_args tc)) (m_tool_calls m)
  ++ match m_content m with
     | Some c => if is_sql_name (m_name m) then [FRawResult c]
                 else if unnamed (m_name m) then [FMessage c] else []
     | None => []
     end.

Definition is_progress_frame (f : frame) : bool :=
  match f with FToolCall _ _ | FRawResult _ | FMessage _ => true | _ => false end.

Definition is_terminal_frame (f : frame) : bool :=
  match f with FCompleted _ _ | FError _ => true | _ => false end.

(** The agent instance [get_or_create_agent] hands out in state [w]. *)
Definition engine_agent (w : world) : nat :=
  match global_agent w with Some a => a | None => agent_seq w end.

(** The state once [get_or_create_agent] has run in state [w]. *)
Definition agent_world (w : world) : world :=
  match global_agent w with
  | Some _ => w
  | None => set_agent (Some (agent_seq w)) (S (agent_seq w)) w
  end.

(** The input text of [POST /query] for [req]. *)
Definition query_input (req : QueryRequest) : string :=
  enhanced_input (py_str_opt (qr_user_id req)) (qr_query req).

(** The stream the engine produces for [POST /query] with [req] in state [w]. *)
Definition query_stream (w : world) (req : QueryRequest) : stream :=
  eng_stream agent (agent_world w) (engine_agent w) (qr_user_id req) (query_input req).

(** The state after the engine's run for [POST /query] with [req] in state [w]. *)
Definition query_world (w : world) (req : QueryRequest) : world :=
  after_run (agent_world w) (engine_agent w) (qr_user_id req)
    (eng_effect agent (agent_world w) (engine_agent w) (qr_user_id req) (query_input req)).

(** What the body of the [try] of [POST /query] computes, once the engine
    has run. *)
Definition query_outcome (w : world) (req : QueryRequest) : result QueryResponse :=
  match collect_events (st_events (query_stream w req)) collected0 with
  | Exc e => Exc e
  | Ok c =>
      match st_failure (query_stream w req) with
      | Some m => Exc (EngineFailure m)
      | None => build_response req c (clock (query_world w req))
      end
  end.

(** The stream and the state after the engine's run for a websocket turn of
    user [uid] with query [q] in state [w]. *)
Definition turn_stream (w : world) (uid : string) (q : jvalue) : stream :=
  eng_stream agent (agent_world w) (engine_agent w) (Some uid) (enhanced_input uid (py_str q)).

Definition turn_world (w : world) (uid : string) (q : jvalue) : world :=
  after_run (agent_world w) (engine_agent w) (Some uid)
    (eng_effect agent (agent_world w) (engine_agent w) (Some uid) (enhanced_input uid (py_str q))).

(** A response to an inbound frame: a terminal frame of a turn or the
    "Query is required" frame. *)
Definition is_reply (a : act) : bool :=
  match a with
  | ASend FRequired => true
  | ASend f => is_terminal_frame f
  | _ => false
  end.

(** An inbound frame that [json.loads] turns into a JSON object. *)
Definition is_object_frame (r : raw) : bool :=
  match r with RawJson (JObj _) => true | _ => false end.


Definition is_engine_act (a : act) : bool :=
  match a with AEngine _ _ => true | _ => false end.

(** An inbound frame that starts a turn: a JSON object whose [query] is
    truthy. *)
Definition starts_turn (r : raw) : bool :=
  match r with
  | RawJson (JObj kvs) => truthy (dict_get kvs "query" (JStr ""))
  | _ => false
  end.

(** The invariant of the engine singleton: a live instance was numbered
    before the counter's current value. *)
Definition agent_ok (w : world) : Prop :=
  forall a, global_agent w = Some a -> a < agent_seq w.


(** ** Lemmas on the event interpretation *)

Lemma last_or_app {A} (l1 l2 : list A) d :
  last_or (l1 ++ l2) d = last_or l2 (last_or l1 d).
Proof.
  unfold last_or. rewrite rev_app_distr.
  destruct (rev l2) as [|x r2]; simpl; reflexivity.
Qed.

Lemma last_or_cons {A} (x : A) l d : last_or (x :: l) d = last_or l (Some x).
Proof. exact (last_or_app [x] l d). Qed.

Lemma scan_tool_calls_last tcs s :
  scan_tool_calls tcs s
  = last_or (map call_query (filter (fun tc => is_sql_name (tc_name tc)) tcs)) s.
Proof.
  revert s; induction tcs as [|tc rest IH]; intro s; [reflexivity|].
  unfold scan_tool_calls in *; simpl.
  rewrite IH. destruct (is_sql_name (tc_name tc)); simpl.
  - rewrite last_or_cons. reflexivity.
  - reflexivity.
Qed.

Lemma collect_message_fields c m :
  c_sql (collect_message c m) = last_or (msg_sql_calls m) (c_sql c) /\
  c_raw (collect_message c m) = last_or (msg_raw m) (c_raw c) /\
  Some (c_summary (collect_message c m)) = last_or (msg_summary m) (Some (c_summary c)).
Proof.
  unfold collect_message, msg_sql_calls, msg_raw, msg_summary.
  rewrite <- scan_tool_calls_last.
  destruct (m_content m) as [content|]; [|repeat split].
  destruct (is_sql_name (m_name m)); [repeat split|].
  destruct (unnamed (m_name m)); repeat split.
Qed.

Lemma observed_cons_some ms m rest :
  last_message ms = Ok m -> observed (Some ms :: rest) = m :: observed rest.
Proof.
  unfold last_message, observed; simpl.
  destruct (rev ms) as [|x r]; [discriminate|]. intros H; inversion H; reflexivity.
Qed.

Lemma collect_events_fields evs c c' :
  collect_events evs c = Ok c' ->
  c_sql c' = last_or (spec_sql_invocations evs) (c_sql c) /\
  c_raw c' = last_or (spec_raw_results evs) (c_raw c) /\
  Some (c_summary c') = last_or (spec_summaries evs) (Some (c_summary c)).
Proof.
  revert c; induction evs as [|[ms|] rest IH]; intros c H; simpl in H.
  - inversion H; subst. repeat split.
  - destruct (last_message ms) as [m|e] eqn:Hm; [|discriminate].
    destruct (IH _ H) as (H1 & H2 & H3).
    destruct (collect_message_fields c m) as (G1 & G2 & G3).
    unfold spec_sql_invocations, spec_raw_results, spec_summaries in *.
    rewrite (observed_cons_some _ _ _ Hm); simpl.
    rewrite !last_or_app, <- G1, <- G2, <- G3. auto.
  - exact (IH c H).
Qed.

Lemma get_or_create_agent_run w :
  get_or_create_agent w = (agent_world w, [], Ok (engine_agent w)).
Proof.
  unfold get_or_create_agent, agent_world, engine_agent. destruct (global_agent w); reflexivity.
Qed.

Lemma invoke_engine_run a t i w :
  invoke_engine a t i w =
  (after_run w a t (eng_effect agent w a t i), [AEngine t i], Ok (eng_stream agent w a t i)).
Proof. reflexivity. Qed.

(** [POST /query] in one step: the engine runs once, the state is the one
    it leaves, and a failure of the body is turned into an HTTP 500. *)
Lemma execute_query_run req w :
  execute_query req w =
  (query_world w req, [AEngine (qr_user_id req) (query_input req)],
   match query_outcome w req with
   | Ok r => Ok r
   | Exc e => Exc (HTTPException 500 ("Query execution failed: " ++ exn_str e))
   end).
Proof.
  unfold execute_query, try_except, bind, lift, raise_stream_failure, now, ret, raise.
  rewrite get_or_create_agent_run, invoke_engine_run.
  unfold query_outcome, query_world, query_stream, query_input.
  set (st := eng_stream agent _ _ _ _). cbn beta iota zeta.
  destruct (collect_events (st_events st) collected0) as [c|e]; cbn beta iota zeta;
  [|reflexivity].
  destruct (st_failure st) as [m|]; cbn beta iota zeta; [reflexivity|].
  destruct (build_response req c _); reflexivity.
Qed.

Lemma execute_query_ok_inv w req w' tr r :
  execute_query req w = (w', tr, Ok r) ->
  exists c ts, collect_events (st_events (query_stream w req)) collected0 = Ok c /\
               st_failure (query_stream w req) = None /\
               build_response req c ts = Ok r.
Proof.
  rewrite execute_query_run. intro H. injection H as _ _ Hr.
  unfold query_outcome in Hr.
  destruct (collect_events (st_events (query_stream w req)) collected0) as [c|e];
  [|discriminate].
  destruct (st_failure (query_stream w req)); [discriminate|].
  exists c, (clock (query_world w req)). split; [reflexivity|]. split; [reflexivity|].
  destruct (build_response req c _); [congruence | discriminate].
Qed.

Lemma build_response_fields req c ts r :
  build_response req c ts = Ok r ->
  qr_user_id req = Some (r_user_id r) /\ r_query r = qr_query req /\
  r_summary r = (if String.eqb (c_summary c) "" then FALLBACK_SUMMARY else c_summary c) /\
  r_sql_query r = c_sql c /\ r_raw_result r = c_raw c.
Proof.
  unfold build_response. destruct (qr_user_id req) as [uid|]; [|discriminate].
  intro H; inversion H; subst; simpl. repeat split.
Qed.

(** Every run of [POST /query] calls the engine exactly once, with the
    prefixed input; it succeeds exactly when the engine's stream is well
    formed and does not fail and the request carries a user id. *)
Lemma execute_query_cases w req :
  let s := query_stream w req in
  let '(_, tr, res) := execute_query req w in
  tr = [AEngine (qr_user_id req)
          (enhanced_input (py_str_opt (qr_user_id req)) (qr_query req))] /\
  match res with
  | Ok r => exists c ts, collect_events (st_events s) collected0 = Ok c /\
                         st_failure s = None /\ build_response req c ts = Ok r
  | Exc _ => (exists e, collect_events (st_events s) collected0 = Exc e)
             \/ st_failure s <> None \/ qr_user_id req = None
  end.
Proof.
  intro s. rewrite execute_query_run. cbn beta iota zeta.
  split; [reflexivity|].
  unfold query_outcome. fold s.
  destruct (collect_events (st_events s) collected0) as [c|e]; [|eauto].
  destruct (st_failure s) as [m|]; [right; left; discriminate|].
  destruct (build_response req c _) as [r|e] eqn:Hb; [eauto|].
  right; right. unfold build_response in Hb. destruct (qr_user_id req); [discriminate | reflexivity].
Qed.

(** ** Claims on [POST /query] *)

(** C1: when the turn's events contain invocations of the SQL tool
    ([sql_db_query]), the SQL text of the returned outcome is the [query]
    argument of the latest one (last wins); for invocations with Q1 then Q2
    it is Q2. *)
Theorem execute_query_sql_last_wins w req w' tr r qs q :
  execute_query req w = (w', tr, Ok r) ->
  spec_sql_invocations (st_events (query_stream w req)) = (qs ++ [q])%list ->
  r_sql_query r = Some q.
Proof.
  intros Hrun Hinv.
  destruct (execute_query_ok_inv _ _ _ _ _ Hrun) as (c & ts & Hc & _ & Hb).
  destruct (collect_events_fields _ _ _ Hc) as (Hsql & _ & _).
  destruct (build_response_fields _ _ _ _ Hb) as (_ & _ & _ & -> & _).
  rewrite Hsql, Hinv, last_or_app. reflexivity.
Qed.

(** C2 (amended): the outcome's summary is the content of the last message
    without a tool name whose content is a string (an AI message carrying
    tool calls is one), replaced by "Query processed successfully" when there
    is no such message or when that content is empty; the SQL text is [None]
    when no [sql_db_query] invocation occurred and the raw result is [None]
    when no [sql_db_query] tool result occurred. *)
Theorem execute_query_summary_fallback w req w' tr r :
  execute_query req w = (w', tr, Ok r) ->
  let evs := st_events (query_stream w req) in
  r_summary r = match last_or (spec_summaries evs) None with
                | Some s => if String.eqb s "" then FALLBACK_SUMMARY else s
                | None => FALLBACK_SUMMARY
                end /\
  (spec_sql_invocations evs = [] -> r_sql_query r = None) /\
  (spec_raw_results evs = [] -> r_raw_result r = None).
Proof.
  intros Hrun evs.
  destruct (execute_query_ok_inv _ _ _ _ _ Hrun) as (c & ts & Hc & _ & Hb).
  destruct (collect_events_fields _ _ _ Hc) as (Hsql & Hraw & Hsum).
  destruct (build_response_fields _ _ _ _ Hb) as (_ & _ & -> & -> & ->).
  fold evs in Hsql, Hraw, Hsum.
  split; [|split].
  - revert Hsum. unfold last_or. simpl.
    destruct (rev (spec_summaries evs)) as [|x l]; intro H; injection H as H; rewrite H; reflexivity.
  - intro E. rewrite Hsql, E. reflexivity.
  - intro E. rewrite Hraw, E. reflexivity.
Qed.

(** C8: a query turn calls the engine with the utterance prefixed by
    "[User ID: <user id>]" and a newline, while the returned outcome carries
    the original, unprefixed utterance. *)
Theorem execute_query_prefixes_user_id w req :
  let '(_, tr, res) := execute_query req w in
  tr = [AEngine (qr_user_id req)
          ("[User ID: " ++ py_str_opt (qr_user_id req) ++ "]" ++ newline ++ qr_query req)] /\
  match res with Ok r => r_query r = qr_query req | Exc _ => True end.
Proof.
  generalize (execute_query_cases w req).
  destruct (execute_query req w) as [[w' tr] [r|e]]; intros [Htr Hres]; split; auto.
  destruct Hres as (c & ts & _ & _ & Hb).
  apply (build_response_fields _ _ _ _ Hb).
Qed.

(** C10: a [POST /query] body without [user_id] is accepted with the user id
    "default_user"; the engine is then called on thread "default_user" (one
    conversation shared by all such callers), the returned outcome reports
    "default_user", and the call fails only when the engine's stream does. *)
Theorem query_default_user kvs q :
  dict_lookup kvs "query" = Some (JStr q) ->
  dict_lookup kvs "user_id" = None ->
  parse_query_request (JObj kvs) = Ok (mkQueryRequest q (Some "default_user")) /\
  forall w,
  let req := mkQueryRequest q (Some "default_user") in
  let s := query_stream w req in
  let '(_, tr, res) := execute_query req w in
  tr = [AEngine (Some "default_user") (enhanced_input "default_user" q)] /\
  match res with
  | Ok r => r_user_id r = "default_user"
  | Exc _ => (exists e, collect_events (st_events s) collected0 = Exc e)
             \/ st_failure s <> None
  end.
Proof.
  intros Hq Hu. split.
  - simpl. rewrite Hq, Hu. reflexivity.
  - intros w req s.
    generalize (execute_query_cases w req).
    destruct (execute_query req w) as [[w' tr] [r|e]]; intros [Htr Hres]; split; auto.
    + destruct Hres as (c & ts & _ & _ & Hb).
      destruct (build_response_fields _ _ _ _ Hb) as (Hu' & _).
      simpl in Hu'. inversion Hu'. reflexivity.
    + destruct Hres as [H | [H | H]]; auto. discriminate.
Qed.

(** ** Lemmas on the websocket turn *)

Lemma ws_tool_calls_run tcs sql w :
  ws_tool_calls tcs sql w =
  (w, map (fun tc => ASend (FToolCall (tc_name tc) (tc_args tc))) tcs,
   Ok (scan_tool_calls tcs sql)).
Proof.
  revert sql; induction tcs as [|tc rest IH]; intro sql; [reflexivity|].
  simpl. unfold bind, send, emit. rewrite IH. reflexivity.
Qed.

Lemma ws_message_run m sql w :
  ws_message m sql w =
  (w, map ASend (msg_frames m), Ok (scan_tool_calls (m_tool_calls m) sql)).
Proof.
  unfold ws_message, msg_frames. unfold bind at 1. rewrite ws_tool_calls_run.
  rewrite map_app, map_map.
  destruct (m_content m) as [c|];
  [destruct (is_sql_name (m_name m)); [|destruct (unnamed (m_name m))]|];
  simpl; rewrite ?app_nil_r; reflexivity.
Qed.

Lemma ws_events_run evs sql w :
  let '(w', tr, r) := ws_events evs sql w in
  w' = w /\
  exists pre post, evs = (pre ++ post)%list /\
    tr = map ASend (flat_map msg_frames (observed pre)) /\
    match r with Ok _ => post = [] | Exc e => e = IndexError end.
Proof.
  revert sql; induction evs as [|[ms|] rest IH]; intro sql.
  - simpl. split; [reflexivity|]. exists [], []. repeat split.
  - simpl. unfold bind at 1, lift.
    destruct (last_message ms) as [m|e] eqn:Hm.
    + unfold ret. unfold bind at 1. rewrite ws_message_run.
      specialize (IH (scan_tool_calls (m_tool_calls m) sql)).
      destruct (ws_events rest _ w) as [[w2 t2] r2].
      destruct IH as (-> & pre & post & -> & -> & Hr).
      split; [reflexivity|]. exists (Some ms :: pre), post.
      rewrite (observed_cons_some _ _ _ Hm). simpl.
      rewrite map_app. repeat split; assumption.
    + unfold raise. split; [reflexivity|]. exists [], (Some ms :: rest).
      repeat split. unfold last_message in Hm.
      destruct (rev ms); inversion Hm; reflexivity.
  - simpl. specialize (IH sql).
    destruct (ws_events rest sql w) as [[w2 t2] r2].
    destruct IH as (-> & pre & post & -> & -> & Hr).
    split; [reflexivity|]. exists (None :: pre), post. repeat split; assumption.
Qed.

Lemma msg_frames_progress m : forallb is_progress_frame (msg_frames m) = true.
Proof.
  unfold msg_frames. rewrite forallb_app. apply andb_true_intro. split.
  - induction (m_tool_calls m) as [|tc l IH]; simpl; auto.
  - destruct (m_content m);
    [destruct (is_sql_name (m_name m)); [|destruct (unnamed (m_name m))]|]; reflexivity.
Qed.

Lemma flat_map_msg_frames_progress l :
  forallb is_progress_frame (flat_map msg_frames l) = true.
Proof.
  induction l as [|m l IH]; [reflexivity|].
  simpl. rewrite forallb_app, msg_frames_progress, IH. reflexivity.
Qed.

Lemma collect_message_sql c m :
  c_sql (collect_message c m) = scan_tool_calls (m_tool_calls m) (c_sql c).
Proof.
  unfold collect_message. destruct (m_content m);
  [destruct (is_sql_name (m_name m)); [|destruct (unnamed (m_name m))]|]; reflexivity.
Qed.

Lemma ws_events_some ms m rest sql w :
  last_message ms = Ok m ->
  ws_events (Some ms :: rest) sql w =
  (let '(w2, t2, r) := ws_events rest (scan_tool_calls (m_tool_calls m) sql) w in
   (w2, (map ASend (msg_frames m) ++ t2)%list, r)).
Proof.
  intro Hm. cbn [ws_events]. unfold bind at 1, lift. rewrite Hm.
  unfold ret. cbn. unfold bind. rewrite ws_message_run.
  destruct (ws_events rest _ w) as [[w2 t2] r]. reflexivity.
Qed.

Lemma ws_events_some_exc ms e rest sql w :
  last_message ms = Exc e -> ws_events (Some ms :: rest) sql w = (w, [], Exc e).
Proof. intro Hm. cbn [ws_events]. unfold bind, lift. rewrite Hm. reflexivity. Qed.

(** On the same events, the websocket loop keeps the SQL text that
    [POST /query] extracts, and fails exactly when it fails. *)
Lemma ws_collect_agree evs c w :
  match collect_events evs c, ws_events evs (c_sql c) w with
  | Ok c', (_, _, Ok s) => c_sql c' = s
  | Exc e, (_, _, Exc e') => e = e'
  | _, _ => False
  end.
Proof.
  revert c w; induction evs as [|[ms|] rest IH]; intros c w.
  - reflexivity.
  - cbn [collect_events].
    destruct (last_message ms) as [m|e] eqn:Hm.
    + rewrite (ws_events_some _ _ _ _ _ Hm).
      specialize (IH (collect_message c m) w). rewrite collect_message_sql in IH.
      destruct (collect_events rest (collect_message c m));
      destruct (ws_events rest _ w) as [[w2 t2] [s|e']]; exact IH.
    + rewrite (ws_events_some_exc _ _ _ _ _ Hm). reflexivity.
  - exact (IH c w).
Qed.

(** One websocket turn: the processing frame, the engine call, a frame per
    observed tool call, tool result and message, then one terminal frame:
    [completed] with the SQL text [POST /query] would extract and the time
    after the engine's run when the stream is well formed and does not
    fail, [error] with the exception's text otherwise.  The state is the
    one the engine's run leaves. *)
Lemma ws_turn_run uid q w :
  let s := turn_stream w uid q in
  let '(w', tr, res) := ws_turn uid q w in
  w' = turn_world w uid q /\ res = Ok tt /\
  exists pre post t,
    st_events s = (pre ++ post)%list /\
    tr = ASend (FProcessing uid q) :: AEngine (Some uid) (enhanced_input uid (py_str q))
         :: (map ASend (flat_map msg_frames (observed pre)) ++ [ASend t])%list /\
    forallb is_progress_frame (flat_map msg_frames (observed pre)) = true /\
    match collect_events (st_events s) collected0, st_failure s with
    | Ok c, None => post = [] /\ t = FCompleted (c_sql c) (clock (turn_world w uid q))
    | Ok _, Some m => post = [] /\ t = FError m
    | Exc e, _ => t = FError (exn_str e)
    end.
Proof.
  intro s.
  unfold ws_turn, send, emit, try_except, bind, ret, raise_stream_failure, now, raise.
  rewrite get_or_create_agent_run, invoke_engine_run.
  unfold turn_world. unfold turn_stream in s. fold s.
  set (w1 := after_run _ _ _ _). cbn beta iota zeta.
  generalize (ws_collect_agree (st_events s) collected0 w1).
  generalize (ws_events_run (st_events s) None w1). cbn [c_sql collected0].
  destruct (ws_events (st_events s) None w1) as [[w2 t2] [sql|e]];
  intros (-> & pre & post & Hsplit & -> & Hr) Hagree; cbn beta iota zeta.
  - destruct (collect_events (st_events s) collected0) as [c|e]; [|contradiction].
    destruct (st_failure s) as [m|]; cbn beta iota zeta;
    (split; [reflexivity|]); (split; [reflexivity|]).
    + exists pre, post, (FError m). rewrite ?app_nil_r.
      split; [exact Hsplit|]. split; [reflexivity|].
      split; [apply flat_map_msg_frames_progress|]. split; [exact Hr | reflexivity].
    + exists pre, post, (FCompleted sql (clock w1)). rewrite ?app_nil_r.
      split; [exact Hsplit|]. split; [reflexivity|].
      split; [apply flat_map_msg_frames_progress|]. split; [exact Hr|]. rewrite Hagree.
      reflexivity.
  - destruct (collect_events (st_events s) collected0) as [c|e0]; [contradiction|].
    subst e0. split; [reflexivity|]. split; [reflexivity|].
    exists pre, post, (FError (exn_str e)). rewrite ?app_nil_r.
    split; [exact Hsplit|]. split; [reflexivity|].
    split; [apply flat_map_msg_frames_progress | reflexivity].
Qed.

(** The endpoint on an inbound object whose [query] is truthy: one turn,
    then the loop goes on with the next inbound frame. *)
Lemma ws_endpoint_turn uid kvs rest w :
  truthy (dict_get kvs "query" (JStr "")) = true ->
  websocket_endpoint uid (RawJson (JObj kvs) :: rest) w =
  (let '(w1, tr1, _) := ws_turn uid (dict_get kvs "query" (JStr "")) w in
   let '(w2, tr2, r2) := websocket_endpoint uid rest w1 in (w2, (tr1 ++ tr2)%list, r2)).
Proof.
  intro Hq.
  unfold websocket_endpoint, try_except. cbn [ws_loop].
  unfold bind at 1, ws_receive_query, bind at 1, lift, json_loads, ret. simpl.
  rewrite Hq. unfold bind at 1.
  generalize (ws_turn_run uid (dict_get kvs "query" (JStr "")) w).
  destruct (ws_turn uid (dict_get kvs "query" (JStr "")) w) as [[w1 t1] r1].
  intros (_ & -> & _).
  destruct (ws_loop uid rest w1) as [[w2 t2] [u|e]]; [reflexivity|].
  destruct e; simpl; rewrite ?app_assoc; reflexivity.
Qed.

(** ** Claims on the websocket endpoint *)

(** C3: for an inbound frame with a non-empty query, the turn sends first a
    [processing] frame (before the engine is invoked), then one frame per
    observed tool call, SQL tool result and message, in the order the events
    arrive, then exactly one terminal frame: either [completed], carrying the
    SQL text extracted from the observed events (the [query] argument of the
    last [sql_db_query] invocation, [None] when there is none) and the time
    at the end of the turn, or [error]; the channel then serves the next
    inbound frame. *)
Theorem ws_turn_frame_order uid kvs rest w :
  truthy (dict_get kvs "query" (JStr "")) = true ->
  let q := dict_get kvs "query" (JStr "") in
  let s := turn_stream w uid q in
  exists w1 pre post t,
    st_events s = (pre ++ post)%list /\
    forallb is_progress_frame (flat_map msg_frames (observed pre)) = true /\
    is_terminal_frame t = true /\
    ((t = FCompleted (last_or (spec_sql_invocations pre) None) (clock w1) /\
      post = [] /\ st_failure s = None)
     \/ (exists msg, t = FError msg)) /\
    websocket_endpoint uid (RawJson (JObj kvs) :: rest) w =
    (let '(w2, tr2, r2) := websocket_endpoint uid rest w1 in
     (w2, (ASend (FProcessing uid q) :: AEngine (Some uid) (enhanced_input uid (py_str q))
           :: map ASend (flat_map msg_frames (observed pre)) ++ [ASend t] ++ tr2)%list, r2)).
Proof.
  intros Hq q s.
  rewrite (ws_endpoint_turn _ _ _ _ Hq). fold q.
  generalize (ws_turn_run uid q w). fold s.
  destruct (ws_turn uid q w) as [[w1 t1] r1].
  intros (Hw1 & _ & pre & post & t & Hs & -> & Hp & Ht).
  exists w1, pre, post, t. split; [exact Hs|]. split; [exact Hp|].
  assert (Hk : (t = FCompleted (last_or (spec_sql_invocations pre) None) (clock w1) /\
                post = [] /\ st_failure s = None) \/ (exists msg, t = FError msg)).
  { destruct (collect_events (st_events s) collected0) as [c|e] eqn:Hc;
    [destruct (st_failure s) as [m|] eqn:Hf|].
    - right. destruct Ht as [_ ->]. eauto.
    - left. destruct Ht as [-> ->]. split; [|split; reflexivity].
      destruct (collect_events_fields _ _ _ Hc) as (Hsql & _ & _).
      rewrite Hsql, Hs, app_nil_r, Hw1. reflexivity.
    - right. rewrite Ht. eauto. }
  split; [destruct Hk as [(-> & _) | (msg & ->)]; reflexivity|].
  split; [exact Hk|].
  destruct (websocket_endpoint uid rest w1) as [[w2 t2] r2].
  simpl. rewrite <- app_assoc. reflexivity.
Qed.

(** C4: an inbound object whose [query] is missing or empty gets exactly one
    [{"error": "Query is required"}] frame, no engine call and no change of
    state, and the channel goes on with the next inbound frame. *)
Theorem ws_empty_query_rejected uid kvs rest w :
  dict_lookup kvs "query" = None \/ dict_lookup kvs "query" = Some (JStr "") ->
  websocket_endpoint uid (RawJson (JObj kvs) :: rest) w =
  (let '(w', tr, r) := websocket_endpoint uid rest w in (w', ASend FRequired :: tr, r)).
Proof.
  intro H.
  assert (Hg : dict_get kvs "query" (JStr "") = JStr "")
    by (unfold dict_get; destruct H as [-> | ->]; reflexivity).
  unfold websocket_endpoint, try_except. cbn [ws_loop].
  unfold bind at 1, ws_receive_query, bind at 1, lift, json_loads, ret. simpl.
  rewrite Hg. simpl. unfold bind at 1, send, emit.
  destruct (ws_loop uid rest w) as [[w2 t2] [u|e]]; [reflexivity|].
  destruct e; reflexivity.
Qed.

(** C9 (amended): a failure while a non-empty query is being served (a
    malformed event stream, a failing engine) is reported by an error frame
    that ends the turn, and the channel goes on with the next inbound frame;
    a failure while reading an inbound frame (text that is not JSON, or JSON
    that is not an object) is caught at the outer boundary of the endpoint,
    reported by one error frame carrying the exception's text (the
    [JSONDecodeError]'s message, or "'<type>' object has no attribute
    'get'"), and ends the handler: the frames after it are never served and
    the channel is closed. *)
Theorem ws_failures_boundary uid :
  (forall kvs rest w,
     truthy (dict_get kvs "query" (JStr "")) = true ->
     let q := dict_get kvs "query" (JStr "") in
     let s := turn_stream w uid q in
     exists w1 tr1,
       ws_turn uid q w = (w1, tr1, Ok tt) /\
       (((exists e, collect_events (st_events s) collected0 = Exc e) \/ st_failure s <> None) ->
        exists msg, last tr1 (ASend FRequired) = ASend (FError msg)) /\
       websocket_endpoint uid (RawJson (JObj kvs) :: rest) w =
       (let '(w2, tr2, r2) := websocket_endpoint uid rest w1 in
        (w2, (tr1 ++ tr2)%list, r2))) /\
  (forall text msg rest w,
     websocket_endpoint uid (RawMalformed text msg :: rest) w =
     (w, [ASend (FError msg)], Ok tt)) /\
  (forall v rest w,
     (forall kvs, v <> JObj kvs) ->
     websocket_endpoint uid (RawJson v :: rest) w =
     (w, [ASend (FError ("'" ++ py_type_name v ++ "' object has no attribute 'get'"))], Ok tt)).
Proof.
  split; [|split].
  - intros kvs rest w Hq q s.
    rewrite (ws_endpoint_turn _ _ _ _ Hq). fold q.
    generalize (ws_turn_run uid q w). fold s.
    destruct (ws_turn uid q w) as [[w1 t1] r1].
    intros (_ & -> & pre & post & t & _ & -> & _ & Ht). exists w1.
    eexists. split; [reflexivity|]. split; [|reflexivity].
    intro Hfail.
    assert (Hlast : last (ASend (FProcessing uid q) :: AEngine (Some uid) (enhanced_input uid (py_str q))
                          :: (map ASend (flat_map msg_frames (observed pre)) ++ [ASend t])%list)
                         (ASend FRequired) = ASend t).
    { rewrite app_comm_cons, app_comm_cons, last_last. reflexivity. }
    rewrite Hlast.
    destruct (collect_events (st_events s) collected0) as [c|e];
    [destruct (st_failure s) as [m|]|].
    + destruct Ht as [_ ->]. eauto.
    + exfalso. destruct Hfail as [(e & He) | Hf]; [discriminate | exact (Hf eq_refl)].
    + rewrite Ht. eauto.
  - intros text msg rest w. reflexivity.
  - intros v rest w Hv.
    destruct v as [| | | | |kvs]; try reflexivity.
    exfalso. exact (Hv kvs eq_refl).
Qed.

(** ** Claims on the preference store and the reset *)

(** C5: an upsert whose user or key is empty fails with [InvalidArgument]
    before any storage I/O and leaves the state unchanged; [POST /preferences]
    reports it as an HTTP 500 whose detail carries that error, again with no
    I/O and no change.  A successful upsert had a non-empty user, key and
    value. *)
Theorem upsert_rejects_empty_user_or_key w user key value ctx fb src :
  (user = "" \/ key = "") ->
  (exists field,
     update_user_priority user key value ctx fb src w
       = (w, [], Exc (InvalidArgument field)) /\
     save_preference (mkPreferenceRequest user key value ctx fb src) w
       = (w, [], Exc (HTTPException 500
                       ("Failed to save preference: " ++ exn_str (InvalidArgument field))))) /\
  (forall u k v w0 w' tr ack,
     update_user_priority u k v ctx fb src w0 = (w', tr, Ok ack) ->
     u <> "" /\ k <> "" /\ v <> "").
Proof.
  intro H. split.
  - assert (Hup : exists field, update_user_priority user key value ctx fb src w
                                = (w, [], Exc (InvalidArgument field))).
    { unfold update_user_priority.
      destruct H as [-> | ->]; simpl; [eauto|].
      destruct (String.eqb user ""); eauto. }
    destruct Hup as [field Hup]. exists field. split; [exact Hup|].
    unfold save_preference, try_except, bind at 1.
    cbn [pr_user_id pr_priority_key pr_priority_value pr_context pr_feedback_text
         pr_source_query].
    rewrite Hup. reflexivity.
  - intros u k v w0 w' tr ack.
    unfold update_user_priority.
    destruct (String.eqb u "") eqn:Hu; [discriminate|].
    destruct (String.eqb k "") eqn:Hk; [discriminate|].
    destruct (String.eqb v "") eqn:Hv; [discriminate|].
    intros _. apply String.eqb_neq in Hu, Hk, Hv. auto.
Qed.

(** C6: [DELETE /preferences/{user}] removes the user's N records and
    reports N; a second call right after reports 0; both succeed. *)
Theorem delete_preferences_count w user :
  let n := length (filter (same_user user) (prefs w)) in
  let '(w1, _, r1) := delete_preferences user w in
  match r1 with Ok d => del_deleted_count d = n | Exc _ => False end /\
  prefs w1 = filter (fun r => negb (same_user user r)) (prefs w) /\
  filter (same_user user) (prefs w1) = [] /\
  let '(_, _, r2) := delete_preferences user w1 in
  match r2 with Ok d => del_deleted_count d = 0 | Exc _ => False end.
Proof.
  simpl. split; [reflexivity|]. split; [reflexivity|].
  assert (Hnone : filter (same_user user)
                    (filter (fun r => negb (same_user user r)) (prefs w)) = []).
  { induction (prefs w) as [|r ps IH]; [reflexivity|].
    simpl. destruct (same_user user r) eqn:E; simpl; [exact IH|].
    rewrite E. exact IH. }
  split; [exact Hnone|]. rewrite Hnone. reflexivity.
Qed.

(** C7 (amended): [POST /clear] always succeeds; whatever user id it is
    given, it drops the single shared engine instance; it returns the given
    user id when that id is a non-empty string and a fresh [uuid4] otherwise
    (no id, [null] or the empty string), with a timestamp; it performs no
    storage I/O or engine call and leaves the preferences unchanged. *)
Theorem clear_conversation_global w user_id :
  let '(w', tr, res) := clear_conversation user_id w in
  tr = [] /\ global_agent w' = None /\ prefs w' = prefs w /\
  agent_seq w' = agent_seq w /\ clock w' = clock w /\
  match res with
  | Ok c => clr_new_user_id c = match user_id with
                                | Some s => if String.eqb s "" then uuid4 (uuid_seq w) else s
                                | None => uuid4 (uuid_seq w)
                                end /\
            clr_timestamp c = clock w
  | Exc _ => False
  end.
Proof.
  unfold clear_conversation, try_except, bind, get_world, put_world, fresh_uuid, now, ret.
  destruct user_id as [s|]; [destruct (String.eqb s "")|]; simpl; repeat split.
Qed.

(** ** Further properties of the handlers *)

(** *** [POST /query]: outcome and failures *)

(** X2: a successful [POST /query] never returns an empty summary. *)
Theorem execute_query_summary_nonempty w req :
  let '(_, _, res) := execute_query req w in
  match res with Ok r => r_summary r <> "" | Exc _ => True end.
Proof.
  generalize (execute_query_cases w req).
  destruct (execute_query req w) as [[w' tr] [r|e]]; intros [_ Hres]; [|exact I].
  destruct Hres as (c & ts & _ & _ & Hb).
  destruct (build_response_fields _ _ _ _ Hb) as (_ & _ & -> & _).
  destruct (String.eqb (c_summary c) "") eqn:E; [discriminate|].
  apply String.eqb_neq. exact E.
Qed.

Lemma execute_query_exc_shape w req :
  let '(_, _, res) := execute_query req w in
  match res with
  | Ok _ => True
  | Exc e => exists d, e = HTTPException 500 ("Query execution failed: " ++ d)
  end.
Proof.
  rewrite execute_query_run. cbn beta iota zeta.
  destruct (query_outcome w req); eauto.
Qed.

Lemma parse_query_request_exc body e :
  parse_query_request body = Exc e -> exists loc, e = RequestValidationError loc.
Proof.
  unfold parse_query_request.
  destruct body as [| | | | |kvs]; try (intro H; injection H as <-; eauto; fail).
  destruct (dict_lookup kvs "query") as [[| | | | |]|];
  destruct (dict_lookup kvs "user_id") as [[| | | | |]|];
  intro H; try discriminate; injection H as <-; eauto.
Qed.

(** X3: a [POST /query] fails in one of two ways only: a body that does not
    fit [QueryRequest] is rejected by FastAPI's validation (status 422)
    before the handler runs, with no engine call and no change of state;
    every failure inside the handler (engine failure, malformed event,
    rejected response) is reported as an HTTP 500 whose detail starts with
    "Query execution failed: ". *)
Theorem post_query_error_status w body w' tr e :
  post_query body w = (w', tr, Exc e) ->
  (exists loc, e = RequestValidationError loc /\ w' = w /\ tr = []) \/
  (exists d, e = HTTPException 500 ("Query execution failed: " ++ d)).
Proof.
  unfold post_query. destruct (parse_query_request body) as [req|e0] eqn:Hp.
  - intro H. right. generalize (execute_query_exc_shape w req). rewrite H. exact id.
  - intro H. injection H as <- <- <-. left.
    destruct (parse_query_request_exc _ _ Hp) as [loc ->]. eauto.
Qed.

(** X4: a request whose [user_id] is an explicit [null] still reaches the
    engine, with the input prefixed by "[User ID: None]", and then always
    fails with an HTTP 500, since the response model requires a string user
    id. *)
Theorem execute_query_null_user w q :
  let '(_, tr, res) := execute_query (mkQueryRequest q None) w in
  tr = [AEngine None (enhanced_input "None" q)] /\
  exists d, res = Exc (HTTPException 500 ("Query execution failed: " ++ d)).
Proof.
  generalize (execute_query_cases w (mkQueryRequest q None)).
  generalize (execute_query_exc_shape w (mkQueryRequest q None)).
  destruct (execute_query (mkQueryRequest q None) w) as [[w' tr] [r|e]];
  intros Hshape [Htr Hres]; split; try exact Htr.
  - destruct Hres as (c & ts & _ & _ & Hb). discriminate Hb.
  - destruct Hshape as [d ->]. eauto.
Qed.

(** *** The websocket path and [POST /query] agree *)

(** X5: for the same user, utterance and engine output, the [completed]
    frame that ends a websocket turn carries the SQL text of the response
    [POST /query] returns. *)
Theorem ws_completed_matches_query w uid q w' tr r :
  execute_query (mkQueryRequest q (Some uid)) w = (w', tr, Ok r) ->
  let '(_, tr2, _) := ws_turn uid (JStr q) w in
  exists ts, last tr2 (ASend FRequired) = ASend (FCompleted (r_sql_query r) ts).
Proof.
  intro H.
  destruct (execute_query_ok_inv _ _ _ _ _ H) as (c & ts & Hc & Hf & Hb).
  destruct (build_response_fields _ _ _ _ Hb) as (_ & _ & _ & -> & _).
  assert (Hs : turn_stream w uid (JStr q) = query_stream w (mkQueryRequest q (Some uid)))
    by reflexivity.
  generalize (ws_turn_run uid (JStr q) w). cbv zeta. rewrite Hs, Hc, Hf.
  destruct (ws_turn uid (JStr q) w) as [[w1 t1] r1].
  intros (_ & _ & pre & post & t & _ & -> & _ & _ & ->).
  eexists. rewrite app_comm_cons, app_comm_cons, last_last. reflexivity.
Qed.


(** *** The websocket endpoint: one reply per inbound frame *)

Lemma ws_endpoint_reject uid kvs rest w :
  truthy (dict_get kvs "query" (JStr "")) = false ->
  websocket_endpoint uid (RawJson (JObj kvs) :: rest) w =
  (let '(w', tr, r) := websocket_endpoint uid rest w in (w', ASend FRequired :: tr, r)).
Proof.
  intro Hq.
  unfold websocket_endpoint, try_except. cbn [ws_loop].
  unfold bind at 1, ws_receive_query, bind at 1, lift, json_loads, ret. simpl.
  rewrite Hq. unfold bind at 1, send, emit.
  destruct (ws_loop uid rest w) as [[w2 t2] [u|e]]; [reflexivity|].
  destruct e; reflexivity.
Qed.

Lemma ws_turn_segment uid q w :
  let '(_, tr, r) := ws_turn uid q w in
  r = Ok tt /\
  exists pre t, tr = (pre ++ [ASend t])%list /\ is_reply (ASend t) = true /\
    filter is_reply pre = [] /\ length (filter is_engine_act tr) = 1.
Proof.
  generalize (ws_turn_run uid q w).
  destruct (ws_turn uid q w) as [[w1 tr] r].
  intros (_ & -> & pre & post & t & _ & -> & Hp & Ht).
  assert (Hterm : is_terminal_frame t = true).
  { destruct (collect_events _ _); [destruct (st_failure _)|];
    [destruct Ht as [_ ->] | destruct Ht as [_ ->] | rewrite Ht]; reflexivity. }
  assert (Hsend : forall (P : act -> bool) l, forallb is_progress_frame l = true ->
            (forall f, is_progress_frame f = true -> P (ASend f) = false) ->
            filter P (map ASend l) = []).
  { intros P l Hl HP. induction l as [|f l IH]; [reflexivity|].
    cbn [forallb] in Hl. apply andb_prop in Hl as [Hf Hl].
    cbn [map filter]. rewrite (HP f Hf). exact (IH Hl). }
  assert (R : filter is_reply (map ASend (flat_map msg_frames (observed pre))) = [])
    by (apply Hsend; [exact Hp | intros [] Hf; try discriminate; reflexivity]).
  assert (E : filter is_engine_act (map ASend (flat_map msg_frames (observed pre))) = [])
    by (apply Hsend; [exact Hp | intros f _; reflexivity]).
  split; [reflexivity|].
  exists (ASend (FProcessing uid q) :: AEngine (Some uid) (enhanced_input uid (py_str q))
          :: map ASend (flat_map msg_frames (observed pre))), t.
  split; [reflexivity|].
  split; [destruct t; try discriminate; reflexivity|].
  split; [cbn [filter is_reply is_terminal_frame]; exact R|].
  cbn [filter is_engine_act]. rewrite filter_app, E. reflexivity.
Qed.

(** X6: an inbound object whose [query] is falsy in Python's sense (missing,
    [null], [false], [0], [""], [[]] or [{}]) gets the single "Query is
    required" frame, with no engine call and no change of state, and the
    channel goes on with the next inbound frame. *)
Theorem ws_falsy_query_rejected uid kvs rest w :
  truthy (dict_get kvs "query" (JStr "")) = false ->
  websocket_endpoint uid (RawJson (JObj kvs) :: rest) w =
  (let '(w', tr, r) := websocket_endpoint uid rest w in (w', ASend FRequired :: tr, r)).
Proof. exact (ws_endpoint_reject uid kvs rest w). Qed.

(** X7: on a channel whose inbound frames are all JSON objects, the trace of
    the endpoint is cut into one segment per inbound frame, in order: each
    segment ends with the frame's single reply (the terminal frame of a turn
    or "Query is required") and holds no other; it holds one engine call
    when the frame's query is truthy, and otherwise no engine call and
    nothing but "Query is required".  The endpoint returns normally when the
    client disconnects. *)
Theorem websocket_one_reply_per_frame uid inbox w :
  forallb is_object_frame inbox = true ->
  let '(_, tr, r) := websocket_endpoint uid inbox w in
  r = Ok tt /\
  exists segs, tr = concat segs /\
    Forall2 (fun f seg =>
               (exists pre t, seg = (pre ++ [ASend t])%list /\ is_reply (ASend t) = true /\
                              filter is_reply pre = []) /\
               length (filter is_engine_act seg) = (if starts_turn f then 1 else 0) /\
               (starts_turn f = false -> seg = [ASend FRequired]))
            inbox segs.
Proof.
  revert w; induction inbox as [|f rest IH]; intros w Hobj.
  - cbn. split; [reflexivity|]. exists []. split; [reflexivity | constructor].
  - cbn [forallb] in Hobj. apply andb_prop in Hobj as [Hf Hrest].
    destruct f as [[| | | | |kvs]|text msg]; try discriminate.
    destruct (truthy (dict_get kvs "query" (JStr ""))) eqn:Hq.
    + rewrite (ws_endpoint_turn _ _ _ _ Hq).
      generalize (ws_turn_segment uid (dict_get kvs "query" (JStr "")) w).
      destruct (ws_turn uid _ w) as [[w1 t1] r1]. intros (_ & pre & t & Ht1 & Hr & Hpre & He).
      specialize (IH w1 Hrest).
      destruct (websocket_endpoint uid rest w1) as [[w2 t2] r2].
      destruct IH as (-> & segs & -> & Hsegs). split; [reflexivity|].
      exists (t1 :: segs). split; [reflexivity|]. constructor; [|exact Hsegs].
      cbn [starts_turn]. rewrite Hq. split; [eauto|]. split; [exact He | discriminate].
    + rewrite (ws_endpoint_reject _ _ _ _ Hq).
      specialize (IH w Hrest).
      destruct (websocket_endpoint uid rest w) as [[w2 t2] r2].
      destruct IH as (-> & segs & -> & Hsegs). split; [reflexivity|].
      exists ([ASend FRequired] :: segs). split; [reflexivity|]. constructor; [|exact Hsegs].
      cbn [starts_turn]. rewrite Hq.
      split; [exists [], FRequired; split; [reflexivity | split; reflexivity]|].
      split; reflexivity.
Qed.

(** *** The engine singleton and its memory *)

Lemma get_or_create_agent_ok w :
  agent_ok w ->
  agent_ok (agent_world w) /\ global_agent (agent_world w) = Some (engine_agent w) /\
  agent_seq w <= agent_seq (agent_world w) /\ engine_agent w < agent_seq (agent_world w).
Proof.
  intro Hok. unfold agent_world, engine_agent.
  destruct (global_agent w) as [a|] eqn:G.
  - split; [exact Hok|]. split; [exact G|]. split; [lia | exact (Hok a G)].
  - unfold agent_ok. cbn [set_agent global_agent agent_seq].
    split; [|split; [reflexivity | lia]].
    intros a Ha. injection Ha as <-. lia.
Qed.

Lemma query_world_fields w req :
  global_agent (query_world w req) = global_agent (agent_world w) /\
  agent_seq (query_world w req) = agent_seq (agent_world w) /\
  memory (query_world w req) =
  (engine_agent w, qr_user_id req,
   ef_conversation (eng_effect agent (agent_world w) (engine_agent w) (qr_user_id req)
                      (query_input req))) :: memory (agent_world w).
Proof. repeat split. Qed.


Lemma clear_conversation_world uid w :
  let w2 := fst (fst (clear_conversation uid w)) in
  global_agent w2 = None /\ agent_seq w2 = agent_seq w /\ prefs w2 = prefs w /\
  memory w2 = memory w.
Proof.
  unfold clear_conversation, try_except, bind, get_world, put_world, fresh_uuid, now, ret.
  destruct uid as [s|]; [destruct (String.eqb s "")|]; simpl; repeat split.
Qed.




(** X8: [POST /query] installs the engine instance it used as the shared one,
    whether it succeeds or fails, so the next query or websocket turn reuses
    it; after [POST /clear] the next one gets a fresh instance, different
    from the one in use before.  The singleton's invariant (a live instance
    was numbered before the counter) is kept throughout. *)
Theorem agent_shared_until_clear w req uid :
  agent_ok w ->
  let '(w1, _, _) := execute_query req w in
  agent_ok w1 /\ global_agent w1 = Some (engine_agent w) /\
  engine_agent w1 = engine_agent w /\
  let '(w2, _, _) := clear_conversation uid w1 in
  agent_ok w2 /\ engine_agent w2 <> engine_agent w1.
Proof.
  intro Hok.
  rewrite execute_query_run. cbn beta iota zeta.
  destruct (get_or_create_agent_ok w Hok) as (Hok1 & G1 & _ & _).
  destruct (query_world_fields w req) as (Gq & Sq & _).
  set (w1 := query_world w req) in *.
  assert (Hokq : agent_ok w1)
    by (intros a Ha; rewrite Sq; apply Hok1; rewrite <- Gq; exact Ha).
  assert (G1' : global_agent w1 = Some (engine_agent w)) by (rewrite Gq; exact G1).
  assert (E1 : engine_agent w1 = engine_agent w)
    by (unfold engine_agent at 1; rewrite G1'; reflexivity).
  split; [exact Hokq|]. split; [exact G1'|]. split; [exact E1|].
  generalize (clear_conversation_world uid w1).
  destruct (clear_conversation uid w1) as [[w2 t2] r2]. simpl. intros (G2 & S2 & _).
  split.
  - intros a Ha. rewrite G2 in Ha. discriminate.
  - unfold engine_agent at 1. rewrite G2, S2, E1.
    assert (Hlt := Hokq _ G1'). lia.
Qed.


(** *** The preference store *)

Lemma dict_lookup_snoc {V} (l : list (string * V)) k v :
  dict_lookup (l ++ [(k, v)]) k = Some v.
Proof.
  induction l as [|[k' v'] l IH]; simpl.
  - rewrite String.eqb_refl. reflexivity.
  - rewrite IH. reflexivity.
Qed.

Lemma filter_negb_idem {A} (P : A -> bool) l :
  filter (fun x => negb (P x)) (filter (fun x => negb (P x)) l) = filter (fun x => negb (P x)) l.
Proof.
  induction l as [|x l IH]; [reflexivity|].
  cbn [filter]. destruct (P x) eqn:E; cbn [negb]; [exact IH|].
  cbn [filter]. rewrite E. cbn [negb]. rewrite IH. reflexivity.
Qed.

Lemma filter_negb_none {A} (P : A -> bool) l :
  filter P (filter (fun x => negb (P x)) l) = [].
Proof.
  induction l as [|x l IH]; [reflexivity|].
  cbn [filter]. destruct (P x) eqn:E; cbn [negb]; [exact IH|].
  cbn [filter]. rewrite E. exact IH.
Qed.

Lemma filter_other_user u v ps :
  v <> u ->
  filter (same_user v) (filter (fun r => negb (same_user u r)) ps) = filter (same_user v) ps.
Proof.
  intro Hvu. induction ps as [|r ps IH]; [reflexivity|].
  cbn [filter]. destruct (same_user u r) eqn:Eu; cbn [negb].
  - destruct (same_user v r) eqn:Ev; [|exact IH].
    exfalso. unfold same_user in Eu, Ev. apply String.eqb_eq in Eu, Ev. congruence.
  - cbn [filter]. destruct (same_user v r); rewrite IH; reflexivity.
Qed.

Lemma same_key_new u k v ctx fb src t :
  same_key u k (mkPref u k v ctx fb src t) = true.
Proof. unfold same_key. cbn [p_user p_key]. rewrite !String.eqb_refl. reflexivity. Qed.

Lemma same_user_new u k v ctx fb src t :
  same_user u (mkPref u k v ctx fb src t) = true.
Proof. unfold same_user. cbn [p_user]. apply String.eqb_refl. Qed.


Lemma get_preferences_run u w :
  get_preferences u w =
  (w, [AStore (IORead u)],
   Ok (mkPreferencesView u (map (fun r => (p_key r, p_value r)) (filter (same_user u) (prefs w)))
         (length (map (fun r => (p_key r, p_value r)) (filter (same_user u) (prefs w)))))).
Proof. reflexivity. Qed.

Lemma delete_preferences_world u w :
  fst (delete_preferences u w) =
  (set_prefs (filter (fun r => negb (same_user u r)) (prefs w)) w, [AStore (IODelete u)]).
Proof. reflexivity. Qed.

Lemma update_user_priority_ok user key value ctx fb src w :
  user <> "" -> key <> "" -> value <> "" ->
  update_user_priority user key value ctx fb src w =
  (set_prefs (filter (fun r => negb (same_key user key r)) (prefs w)
              ++ [mkPref user key value ctx fb src (clock w)]) w,
   [AStore (IOUpsert user key)],
   Ok ("Saved preference " ++ key ++ " = " ++ value)).
Proof.
  intros Hu Hk Hv. unfold update_user_priority.
  apply String.eqb_neq in Hu, Hk, Hv. rewrite Hu, Hk, Hv. reflexivity.
Qed.

Lemma save_preference_ok u k v ctx fb src w :
  u <> "" -> k <> "" -> v <> "" ->
  let ps := (filter (fun r => negb (same_key u k r)) (prefs w)
             ++ [mkPref u k v ctx fb src (clock w)])%list in
  save_preference (mkPreferenceRequest u k v ctx fb src) w =
  (set_prefs ps w, [AStore (IOUpsert u k); AStore (IORead u)],
   Ok (mkPreferenceResponse ("Saved preference " ++ k ++ " = " ++ v) u
         (map (fun r => (p_key r, p_value r)) (filter (same_user u) ps)))).
Proof.
  intros Hu Hk Hv ps.
  unfold save_preference, try_except, bind at 1.
  cbn [pr_user_id pr_priority_key pr_priority_value pr_context pr_feedback_text
       pr_source_query].
  rewrite (update_user_priority_ok _ _ _ _ _ _ _ Hu Hk Hv). reflexivity.
Qed.

Lemma save_preference_world req w :
  fst (fst (save_preference req w)) = w \/
  fst (fst (save_preference req w)) =
  set_prefs (filter (fun r => negb (same_key (pr_user_id req) (pr_priority_key req) r)) (prefs w)
             ++ [mkPref (pr_user_id req) (pr_priority_key req) (pr_priority_value req)
                   (pr_context req) (pr_feedback_text req) (pr_source_query req) (clock w)]) w.
Proof.
  unfold save_preference, try_except, bind, update_user_priority, get_user_priorities, ret,
    raise.
  destruct (String.eqb (pr_user_id req) ""); [left; reflexivity|].
  destruct (String.eqb (pr_priority_key req) ""); [left; reflexivity|].
  destruct (String.eqb (pr_priority_value req) ""); [left; reflexivity|].
  right; reflexivity.
Qed.

(** X10: a [POST /preferences] with a non-empty user, key and value succeeds
    after one upsert and one read; afterwards the store holds exactly one
    record for that (user, key), the returned preferences map the key to the
    new value, and a [GET /preferences/{user}] right after returns those same
    preferences with their count. *)
Theorem save_preference_roundtrip req w :
  pr_user_id req <> "" -> pr_priority_key req <> "" -> pr_priority_value req <> "" ->
  let '(w1, tr, res) := save_preference req w in
  tr = [AStore (IOUpsert (pr_user_id req) (pr_priority_key req));
        AStore (IORead (pr_user_id req))] /\
  length (filter (same_key (pr_user_id req) (pr_priority_key req)) (prefs w1)) = 1 /\
  match res with
  | Ok p => dict_lookup (pres_preferences p) (pr_priority_key req) = Some (pr_priority_value req) /\
            get_preferences (pr_user_id req) w1 =
            (w1, [AStore (IORead (pr_user_id req))],
             Ok (mkPreferencesView (pr_user_id req) (pres_preferences p)
                   (length (pres_preferences p))))
  | Exc _ => False
  end.
Proof.
  destruct req as [u k v ctx fb src].
  cbn [pr_user_id pr_priority_key pr_priority_value pr_context pr_feedback_text
       pr_source_query].
  intros Hu Hk Hv. rewrite (save_preference_ok u k v ctx fb src w Hu Hk Hv).
  cbn [prefs set_prefs pres_preferences].
  split; [reflexivity|]. split; [|split].
  - rewrite filter_app, filter_negb_none. cbn [filter]. rewrite same_key_new. reflexivity.
  - rewrite filter_app, map_app. cbn [filter]. rewrite same_user_new. cbn [map p_key p_value]. apply dict_lookup_snoc.
  - rewrite get_preferences_run. reflexivity.
Qed.

(** X11: [POST /preferences] touches at most the one (user, key) record it
    names: every other record, of this user or of another, is kept as it
    was, whether the upsert succeeds or is rejected. *)
Theorem save_preference_frame req w :
  let '(w1, _, _) := save_preference req w in
  filter (fun r => negb (same_key (pr_user_id req) (pr_priority_key req) r)) (prefs w1) =
  filter (fun r => negb (same_key (pr_user_id req) (pr_priority_key req) r)) (prefs w).
Proof.
  destruct (save_preference_world req w) as [H | H];
  destruct (save_preference req w) as [[w1 t] r]; cbn [fst] in H; subst w1; [reflexivity|].
  cbn [prefs set_prefs]. rewrite filter_app, filter_negb_idem.
  cbn [filter]. rewrite same_key_new. cbn [negb].
  apply app_nil_r.
Qed.

(** X12: right after [DELETE /preferences/{user}], a
    [GET /preferences/{user}] succeeds with no preferences and a count of 0,
    while the preferences of every other user read as before. *)
Theorem delete_then_get u w :
  let '(w1, tr, _) := delete_preferences u w in
  tr = [AStore (IODelete u)] /\
  get_preferences u w1 = (w1, [AStore (IORead u)], Ok (mkPreferencesView u [] 0)) /\
  (forall v, v <> u -> snd (get_preferences v w1) = snd (get_preferences v w)).
Proof.
  generalize (delete_preferences_world u w).
  destruct (delete_preferences u w) as [[w1 tr] r]. cbn [fst]. intro E.
  injection E as -> ->.
  split; [reflexivity|]. split.
  - rewrite get_preferences_run. cbn [prefs set_prefs]. rewrite filter_negb_none. reflexivity.
  - intros v Hv. rewrite !get_preferences_run. cbn [snd prefs set_prefs].
    rewrite (filter_other_user u v _ Hv). reflexivity.
Qed.


End Handlers.

(** ** Witnesses and counterexamples on concrete runs *)

Lemma execute_query_sql_last_wins_witness :
  execute_query demo_engine demo_request world0 = (world1, demo_trace, Ok demo_response) /\
  spec_sql_invocations (st_events (query_stream demo_engine world0 demo_request))
    = (["SELECT * FROM plan"] ++ ["SELECT * FROM plans"])%list /\
  r_sql_query demo_response = Some "SELECT * FROM plans".
Proof.
  split; [reflexivity|]. split; [reflexivity|].
  apply (execute_query_sql_last_wins demo_engine world0 demo_request world1 demo_trace
           demo_response ["SELECT * FROM plan"] "SELECT * FROM plans");
  reflexivity.
Defined.

(** The last message without a tool name is the AI message carrying the
    tool call, whose content is empty; the summary is the fallback, neither
    that content nor the earlier "Partial answer". *)
Lemma execute_query_summary_counterexample :
  execute_query partial_engine demo_request world0 = (world1, demo_trace, Ok partial_response) /\
  last_or (spec_summaries (st_events (query_stream partial_engine world0 demo_request))) None
    = Some "" /\
  r_summary partial_response <> "" /\ r_summary partial_response <> "Partial answer".
Proof.
  split; [reflexivity|]. split; [reflexivity|]. split; discriminate.
Qed.

Lemma execute_query_summary_fallback_witness :
  execute_query demo_engine demo_request world0 = (world1, demo_trace, Ok demo_response) /\
  let evs := st_events (query_stream demo_engine world0 demo_request) in
  r_summary demo_response = match last_or (spec_summaries evs) None with
                            | Some s => if String.eqb s "" then FALLBACK_SUMMARY else s
                            | None => FALLBACK_SUMMARY
                            end /\
  (spec_sql_invocations evs = [] -> r_sql_query demo_response = None) /\
  (spec_raw_results evs = [] -> r_raw_result demo_response = None).
Proof.
  split; [reflexivity|].
  exact (execute_query_summary_fallback demo_engine world0 demo_request world1 demo_trace
           demo_response eq_refl).
Defined.

Lemma ws_turn_frame_order_witness :
  truthy (dict_get demo_frame_kvs "query" (JStr "")) = true /\
  let q := dict_get demo_frame_kvs "query" (JStr "") in
  let s := turn_stream demo_engine world0 "alice" q in
  exists w1 pre post t,
    st_events s = (pre ++ post)%list /\
    forallb is_progress_frame (flat_map msg_frames (observed pre)) = true /\
    is_terminal_frame t = true /\
    ((t = FCompleted (last_or (spec_sql_invocations pre) None) (clock w1) /\
      post = [] /\ st_failure s = None)
     \/ (exists msg, t = FError msg)) /\
    websocket_endpoint demo_engine "alice" [RawJson (JObj demo_frame_kvs)] world0 =
    (let '(w2, tr2, r2) := websocket_endpoint demo_engine "alice" [] w1 in
     (w2, (ASend (FProcessing "alice" q)
           :: AEngine (Some "alice") (enhanced_input "alice" (py_str q))
           :: map ASend (flat_map msg_frames (observed pre)) ++ [ASend t] ++ tr2)%list, r2)).
Proof.
  split; [reflexivity|].
  exact (ws_turn_frame_order demo_engine "alice" demo_frame_kvs [] world0 eq_refl).
Defined.

Lemma ws_empty_query_rejected_witness :
  (dict_lookup [("query", JStr "")] "query" = None \/
   dict_lookup [("query", JStr "")] "query" = Some (JStr "")) /\
  websocket_endpoint demo_engine "alice"
    [RawJson (JObj [("query", JStr "")]); RawJson (JObj demo_frame_kvs)] world0 =
  (let '(w', tr, r) :=
     websocket_endpoint demo_engine "alice" [RawJson (JObj demo_frame_kvs)] world0 in
   (w', ASend FRequired :: tr, r)).
Proof.
  split; [right; reflexivity|].
  apply ws_empty_query_rejected. right. reflexivity.
Defined.

Lemma upsert_rejects_empty_user_or_key_witness :
  ("" = "" \/ "cost" = "") /\
  (exists field,
     update_user_priority "" "cost" "low" None None None world0
       = (world0, [], Exc (InvalidArgument field)) /\
     save_preference (mkPreferenceRequest "" "cost" "low" None None None) world0
       = (world0, [], Exc (HTTPException 500
                            ("Failed to save preference: " ++ exn_str (InvalidArgument field))))) /\
  (forall u k v w0 w' tr ack,
     update_user_priority u k v None None None w0 = (w', tr, Ok ack) ->
     u <> "" /\ k <> "" /\ v <> "").
Proof.
  split; [left; reflexivity|].
  apply upsert_rejects_empty_user_or_key. left. reflexivity.
Defined.

(** An empty user id is not echoed: a fresh uuid is returned instead. *)
Lemma clear_conversation_empty_id_counterexample :
  clear_conversation demo_uuid4 (Some "") world0 =
  (mkWorld None 0 [] 42 1 [], [],
   Ok (mkClearResponse "Conversation memory cleared" (demo_uuid4 0) 42)) /\
  demo_uuid4 0 <> "".
Proof.
  split; [reflexivity | discriminate].
Qed.

(** A malformed frame ends the handler: the query sent after it is never
    served (no [processing] frame), the channel is closed.  The error frame
    carries [json.loads]'s message on that text. *)
Lemma ws_malformed_frame_closes_channel :
  websocket_endpoint demo_engine "alice"
    [RawMalformed "{query: hi"
       "Expecting property name enclosed in double quotes: line 1 column 2 (char 1)";
     RawJson (JObj demo_frame_kvs)] world0 =
  (world0, [ASend (FError
                     "Expecting property name enclosed in double quotes: line 1 column 2 (char 1)")],
   Ok tt).
Proof. reflexivity. Qed.

Lemma ws_failures_boundary_witness :
  truthy (dict_get demo_frame_kvs "query" (JStr "")) = true /\
  (let q := dict_get demo_frame_kvs "query" (JStr "") in
   let s := turn_stream demo_engine world0 "alice" q in
   exists w1 tr1,
     ws_turn demo_engine "alice" q world0 = (w1, tr1, Ok tt) /\
     (((exists e, collect_events (st_events s) collected0 = Exc e) \/ st_failure s <> None) ->
      exists msg, last tr1 (ASend FRequired) = ASend (FError msg)) /\
     websocket_endpoint demo_engine "alice" [RawJson (JObj demo_frame_kvs)] world0 =
     (let '(w2, tr2, r2) := websocket_endpoint demo_engine "alice" [] w1 in
      (w2, (tr1 ++ tr2)%list, r2))) /\
  (forall kvs, JArr [] <> JObj kvs) /\
  websocket_endpoint demo_engine "alice" [RawJson (JArr []); RawJson (JObj demo_frame_kvs)] world0
    = (world0, [ASend (FError "'list' object has no attribute 'get'")], Ok tt).
Proof.
  destruct (ws_failures_boundary demo_engine "alice") as (H1 & _ & H3).
  assert (Hq : truthy (dict_get demo_frame_kvs "query" (JStr "")) = true) by reflexivity.
  assert (Hv : forall kvs, JArr [] <> JObj kvs) by discriminate.
  split; [exact Hq|]. split; [exact (H1 _ _ _ Hq)|]. split; [exact Hv|].
  exact (H3 _ _ _ Hv).
Defined.

Lemma query_default_user_witness :
  dict_lookup demo_frame_kvs "query" = Some (JStr "Which plans exist?") /\
  dict_lookup demo_frame_kvs "user_id" = None /\
  parse_query_request (JObj demo_frame_kvs)
    = Ok (mkQueryRequest "Which plans exist?" (Some "default_user")).
Proof.
  split; [reflexivity|]. split; [reflexivity|].
  exact (proj1 (query_default_user demo_engine demo_frame_kvs "Which plans exist?"
                  eq_refl eq_refl)).
Defined.

(** A request with an explicit [null] user id is rejected by the response
    model, and reported as an HTTP 500; a body whose query is not a string
    is rejected before the handler runs. *)
Lemma post_query_error_status_witness :
  post_query demo_engine null_user_body world0 =
    (null_user_world, [AEngine None (enhanced_input "None" "Which plans exist?")],
     Exc (HTTPException 500 ("Query execution failed: "
                             ++ none_not_str_error "QueryResponse" "user_id"))) /\
  (exists d, HTTPException 500 ("Query execution failed: "
                                ++ none_not_str_error "QueryResponse" "user_id")
             = HTTPException 500 ("Query execution failed: " ++ d)) /\
  post_query demo_engine bad_query_body world0 =
    (world0, [], Exc (RequestValidationError "query")) /\
  (exists loc, RequestValidationError "query" = RequestValidationError loc /\
               world0 = world0 /\ @nil act = []).
Proof.
  assert (H1 : post_query demo_engine null_user_body world0 =
                 (null_user_world, [AEngine None (enhanced_input "None" "Which plans exist?")],
                  Exc (HTTPException 500 ("Query execution failed: "
                                          ++ none_not_str_error "QueryResponse" "user_id"))))
    by reflexivity.
  assert (H2 : post_query demo_engine bad_query_body world0 =
                 (world0, [], Exc (RequestValidationError "query"))) by reflexivity.
  split; [exact H1|].
  split; [destruct (post_query_error_status demo_engine _ _ _ _ _ H1)
            as [(loc & E & _) | D]; [discriminate E | exact D]|].
  split; [exact H2|].
  destruct (post_query_error_status demo_engine _ _ _ _ _ H2) as [L | (d & E)];
  [exact L | discriminate E].
Defined.

Lemma ws_completed_matches_query_witness :
  execute_query demo_engine (mkQueryRequest "Which plans exist?" (Some "alice")) world0
    = (world1, demo_trace, Ok demo_response) /\
  let '(_, tr2, _) := ws_turn demo_engine "alice" (JStr "Which plans exist?") world0 in
  exists ts, last tr2 (ASend FRequired) = ASend (FCompleted (r_sql_query demo_response) ts).
Proof.
  assert (H : execute_query demo_engine (mkQueryRequest "Which plans exist?" (Some "alice")) world0
                = (world1, demo_trace, Ok demo_response)) by reflexivity.
  split; [exact H|].
  exact (ws_completed_matches_query demo_engine _ _ _ _ _ _ H).
Defined.

Lemma ws_falsy_query_rejected_witness :
  truthy (dict_get [("query", JNum 0)] "query" (JStr "")) = false /\
  websocket_endpoint demo_engine "alice" [RawJson (JObj [("query", JNum 0)])] world0 =
  (let '(w', tr, r) := websocket_endpoint demo_engine "alice" [] world0 in
   (w', ASend FRequired :: tr, r)).
Proof.
  assert (H : truthy (dict_get [("query", JNum 0)] "query" (JStr "")) = false) by reflexivity.
  split; [exact H|].
  exact (ws_falsy_query_rejected demo_engine "alice" _ [] world0 H).
Defined.

Lemma websocket_one_reply_per_frame_witness :
  forallb is_object_frame demo_inbox = true /\
  let '(_, tr, r) := websocket_endpoint demo_engine "alice" demo_inbox world0 in
  r = Ok tt /\
  exists segs, tr = concat segs /\
    Forall2 (fun f seg =>
               (exists pre t, seg = (pre ++ [ASend t])%list /\ is_reply (ASend t) = true /\
                              filter is_reply pre = []) /\
               length (filter is_engine_act seg) = (if starts_turn f then 1 else 0) /\
               (starts_turn f = false -> seg = [ASend FRequired]))
            demo_inbox segs.
Proof.
  assert (H : forallb is_object_frame demo_inbox = true) by reflexivity.
  split; [exact H|].
  exact (websocket_one_reply_per_frame demo_engine "alice" demo_inbox world0 H).
Defined.

Lemma agent_shared_until_clear_witness :
  agent_ok world1 /\
  let '(w1, _, _) := execute_query demo_engine demo_request world1 in
  agent_ok w1 /\ global_agent w1 = Some (engine_agent world1) /\
  engine_agent w1 = engine_agent world1 /\
  let '(w2, _, _) := clear_conversation demo_uuid4 (Some "alice") w1 in
  agent_ok w2 /\ engine_agent w2 <> engine_agent w1.
Proof.
  assert (H : agent_ok world1) by (intros a Ha; injection Ha as <-; simpl; lia).
  split; [exact H|].
  exact (agent_shared_until_clear demo_engine demo_uuid4 world1 demo_request (Some "alice") H).
Defined.

Lemma save_preference_roundtrip_witness :
  (pr_user_id demo_pref_request <> "" /\ pr_priority_key demo_pref_request <> "" /\
   pr_priority_value demo_pref_request <> "") /\
  let '(w1, tr, res) := save_preference demo_pref_request pref_world in
  tr = [AStore (IOUpsert (pr_user_id demo_pref_request) (pr_priority_key demo_pref_request));
        AStore (IORead (pr_user_id demo_pref_request))] /\
  length (filter (same_key (pr_user_id demo_pref_request) (pr_priority_key demo_pref_request))
            (prefs w1)) = 1 /\
  match res with
  | Ok p => dict_lookup (pres_preferences p) (pr_priority_key demo_pref_request)
              = Some (pr_priority_value demo_pref_request) /\
            get_preferences (pr_user_id demo_pref_request) w1 =
            (w1, [AStore (IORead (pr_user_id demo_pref_request))],
             Ok (mkPreferencesView (pr_user_id demo_pref_request) (pres_preferences p)
                   (length (pres_preferences p))))
  | Exc _ => False
  end.
Proof.
  assert (Hu : pr_user_id demo_pref_request <> "") by (simpl; discriminate).
  assert (Hk : pr_priority_key demo_pref_request <> "") by (simpl; discriminate).
  assert (Hv : pr_priority_value demo_pref_request <> "") by (simpl; discriminate).
  split; [split; [exact Hu | split; [exact Hk | exact Hv]]|].
  exact (save_preference_roundtrip demo_pref_request pref_world Hu Hk Hv).
Defined.


